(** * Agent Duel: the agent loader and the multi-game example agent

    A shallow embedding of [agentduel_agents/base.py] ([load_agent],
    [get_agent_game], the contract types [AgentBase] and [AgentProtocol])
    and of the dispatch code of [examples/multi_game_agent.py].

    Python objects are modelled by what the loader observes of them:
    identity, being a class, attribute lookup, truthiness and the effect of
    calling them.  User code (a module body, a constructor) is a state
    transformer on the interpreter state that either returns or raises. *)

From Stdlib Require Import ZArith Ascii.
From Stdlib Require String.
From stdpp Require Import gmap strings list sorting pretty.

(** ** Strings: the parts of [str] and [pathlib] the loader relies on *)

Module PyString.

(** [s.endswith(suf)] *)
Definition endswith (s suf : string) : bool :=
  let n := String.length s in
  let k := String.length suf in
  (k <=? n)%nat && String.eqb (String.substring (n - k) k s) suf.

(** Splits [s] at the last occurrence of [c]: [Some (s[:i], s[i:])] with
    [i = s.rfind(c)], [None] when [c] does not occur. *)
Fixpoint rsplit (c : ascii) (s : string) : option (string * string) :=
  match s with
  | EmptyString => None
  | String a s' =>
      match rsplit c s' with
      | Some (pre, post) => Some (String a pre, post)
      | None => if Ascii.eqb a c then Some (EmptyString, s) else None
      end
  end.

(** [PurePath.name]: the final component of a normalised path. *)
Definition name (path : string) : string :=
  match rsplit "/"%char path with
  | Some (_, String _ tail) => tail
  | _ => path
  end.

(** [PurePath.suffix]:
    [i = name.rfind('.'); name[i:] if 0 < i < len(name) - 1 else ''].
    With [(stem, ext) = (name[:i], name[i:])], [0 < i] says the stem is
    not empty and [i < len(name) - 1] says [ext] is more than the dot. *)
Definition suffix (path : string) : string :=
  match rsplit "."%char (name path) with
  | Some (stem, ext) =>
      if (0 <? String.length stem)%nat && (1 <? String.length ext)%nat
      then ext else ""
  | None => ""
  end.

End PyString.

(** ** Exceptions

    [base.py] raises one exception class, [AgentLoadError], at eight places
    that differ by their message.  [LoadErrorSite] names the raise
    statement; the message text is carried along. *)

Inductive LoadErrorSite : Type :=
| FileNotFound         (* line 143: "Agent file not found: ..." *)
| NotPythonFile        (* line 146: "Agent file must be a Python file: ..." *)
| NoModuleSpec         (* line 152: "Failed to load module from: ..." *)
| ModuleLoadFailed     (* line 158: "Failed to load agent module: ..." *)
| NoAgentClass         (* line 177: "No agent class found. ..." *)
| GameMismatchSite     (* line 185: "Agent is for '...' but ..." *)
| InstantiationFailed  (* line 194: "Failed to instantiate agent: ..." *)
| MissingOnTurn.       (* line 198: "Agent must have an 'on_turn' method" *)

(** A raised exception.  [class AgentLoadError(Exception)] derives from
    [Exception]; so does every ordinary error of user code
    ([OtherException]: [SyntaxError], [TypeError], [ImportError], ...).
    [SystemExit], [KeyboardInterrupt] and [GeneratorExit] derive from
    [BaseException] only ([ExitException]) and are not matched by an
    [except Exception] clause. *)
Inductive PyExc : Type :=
| AgentLoadError (site : LoadErrorSite) (msg : string)
| OtherException (cls msg : string)
| ExitException (cls msg : string).

(** [isinstance(e, Exception)] *)
Definition is_Exception (e : PyExc) : bool :=
  match e with
  | AgentLoadError _ _ | OtherException _ _ => true
  | ExitException _ _ => false
  end.

(** [str(e)], as interpolated by [f"...{e}"] *)
Definition exc_str (e : PyExc) : string :=
  match e with
  | AgentLoadError _ msg | OtherException _ msg | ExitException _ msg => msg
  end.

(** The failure kinds of the specification's loader contract.  The code has
    no such tag: every kind is the same class [AgentLoadError], and the
    kind is read off the raise statement. *)
Inductive LoadErrorKind : Type :=
| NotFound | InvalidFormat | ExecutionFailure | ContractViolation | GameMismatch.

Definition kind_of_site (site : LoadErrorSite) : LoadErrorKind :=
  match site with
  | FileNotFound => NotFound
  | NotPythonFile => InvalidFormat
  | NoModuleSpec | ModuleLoadFailed | InstantiationFailed => ExecutionFailure
  | NoAgentClass | MissingOnTurn => ContractViolation
  | GameMismatchSite => GameMismatch
  end.

(** ** Interpreter state *)

(** A module object, identified by the spec it was created from:
    [module.__name__] and [module.__file__]. *)
Record ModuleRef : Type := mkModuleRef {
  mod_name : string;
  mod_file : string
}.

(** The part of the process state that user code and the loader share:
    [sys.modules], and a log of whatever else user code did that the host
    can observe (output, files written, network calls). *)
Record World : Type := mkWorld {
  sys_modules : gmap string ModuleRef;
  effects : list string
}.

Definition set_sys_modules (f : gmap string ModuleRef → gmap string ModuleRef)
    (w : World) : World :=
  {| sys_modules := f (sys_modules w); effects := effects w |}.

Definition log_effect (ev : string) (w : World) : World :=
  {| sys_modules := sys_modules w; effects := effects w ++ [ev] |}.

(** ** Computations that may raise *)

Inductive Outcome (A : Type) : Type :=
| Ret (a : A)
| Raise (e : PyExc).
Arguments Ret {A} a.
Arguments Raise {A} e.

Definition Py (A : Type) : Type := World → Outcome A * World.

Definition ret {A} (a : A) : Py A := λ w, (Ret a, w).
Definition raise {A} (e : PyExc) : Py A := λ w, (Raise e, w).

Definition bind {A B} (m : Py A) (k : A → Py B) : Py B :=
  λ w, match m w with
       | (Ret a, w') => k a w'
       | (Raise e, w') => (Raise e, w')
       end.

(** [try: body  except Exception as e: handler(e)].  State changes made by
    [body] before it raised are kept; an exception that is not an
    [Exception] passes through. *)
Definition try_except_Exception {A} (body : Py A) (handler : PyExc → Py A) : Py A :=
  λ w, match body w with
       | (Ret a, w') => (Ret a, w')
       | (Raise e, w') => if is_Exception e then handler e w' else (Raise e, w')
       end.

Declare Scope py_scope.
Delimit Scope py_scope with py.
Notation "x <- c1 ;; c2" := (bind c1 (λ x, c2))
  (at level 100, c1 at next level, c2 at level 200, right associativity) : py_scope.
Notation "'exec' c1 ;; c2" := (bind c1 (λ _, c2))
  (at level 100, c1 at next level, c2 at level 200, right associativity) : py_scope.

(** ** Python objects *)

(** Scalars are themselves; every other object is given by its identity
    ([id(obj)]), whether it is a class ([isinstance(obj, type)]), the
    attributes that lookup on it finds (inherited ones included) and, when
    it is callable, what calling it without arguments does. *)
#[local] Unset Elimination Schemes.
Inductive PyObj : Type :=
| PyNone
| PyBool (b : bool)
| PyInt (z : Z)
| PyStr (s : string)
| PyObject (id : N) (is_type : bool) (attrs : list (string * PyObj))
    (call : option (World → Outcome PyObj * World)).
#[local] Set Elimination Schemes.

(** [isinstance(obj, type)] *)
Definition isinstance_type (obj : PyObj) : bool :=
  match obj with
  | PyObject _ is_type _ _ => is_type
  | _ => false
  end.

(** [a is b].  [base.py] compares by identity against [None] and against
    the class [AgentBase] only; numbers and strings are never compared so. *)
Definition py_is (a b : PyObj) : bool :=
  match a, b with
  | PyNone, PyNone => true
  | PyBool x, PyBool y => Bool.eqb x y
  | PyObject i _ _ _, PyObject j _ _ _ => N.eqb i j
  | _, _ => false
  end.

Fixpoint assoc (name : string) (l : list (string * PyObj)) : option PyObj :=
  match l with
  | [] => None
  | (k, v) :: l' => if String.eqb k name then Some v else assoc name l'
  end.

(** Attribute lookup; [None] is [AttributeError].  The scalars have no
    attribute called [on_turn] or [GAME], the only two names looked up.
    An object is given with the attributes that lookup finds on it: lookup
    runs no code here.  Objects whose lookup runs user code ([__getattr__],
    properties, descriptors), which may raise anything at lines 164-172, 182
    and 197, are not described. *)
Definition lookup_attr (obj : PyObj) (name : string) : option PyObj :=
  match obj with
  | PyObject _ _ attrs _ => assoc name attrs
  | _ => None
  end.

(** [hasattr(obj, name)] *)
Definition hasattr (obj : PyObj) (name : string) : bool :=
  bool_decide (is_Some (lookup_attr obj name)).

(** [getattr(obj, name, default)] *)
Definition getattr (obj : PyObj) (name : string) (dflt : PyObj) : PyObj :=
  match lookup_attr obj name with
  | Some v => v
  | None => dflt
  end.

(** [callable(obj)] *)
Definition callable (obj : PyObj) : bool :=
  match obj with
  | PyObject _ _ _ (Some _) => true
  | _ => false
  end.

(** [obj()]: calling what is not callable raises [TypeError]. *)
Definition py_call (obj : PyObj) : Py PyObj :=
  match obj with
  | PyObject _ _ _ (Some f) => f
  | _ => raise (OtherException "TypeError" "object is not callable")
  end.

(** [bool(obj)]; an object that defines neither [__bool__] nor [__len__]
    is true. *)
Definition truthy (obj : PyObj) : bool :=
  match obj with
  | PyNone => false
  | PyBool b => b
  | PyInt z => negb (z =? 0)%Z
  | PyStr s => negb (String.eqb s "")
  | PyObject _ _ _ _ => true
  end.

(** [bool(expected_game)] for [expected_game : str | None] *)
Definition truthy_opt (expected_game : option string) : bool :=
  match expected_game with
  | Some s => negb (String.eqb s "")
  | None => false
  end.

(** [obj != s] for a string [s]: only an equal string is equal to it. *)
Definition py_ne_str (obj : PyObj) (s : string) : bool :=
  match obj with
  | PyStr t => negb (String.eqb t s)
  | _ => true
  end.

(** [str(obj)], as interpolated by an f-string.  The text Python prints for
    an object that is not a scalar depends on its class and is not part of
    the model. *)
Definition py_str (obj : PyObj) : string :=
  match obj with
  | PyNone => "None"
  | PyBool true => "True"
  | PyBool false => "False"
  | PyInt z => pretty z
  | PyStr s => s
  | PyObject _ _ _ _ => "<object>"
  end.

(** ** The contract types of [base.py] (lines 9-114) *)

(** A method found by attribute lookup: callable; called without its
    argument it raises [TypeError]. *)
Definition method (id : N) (name : string) : PyObj :=
  PyObject id false []
    (Some (raise (OtherException "TypeError"
                    (name +:+ "() missing 1 required positional argument")))).

Definition lifecycle_methods (base : N) : list (string * PyObj) :=
  [ ("on_match_start", method (base + 1) "on_match_start");
    ("on_round_start", method (base + 2) "on_round_start");
    ("on_turn", method (base + 3) "on_turn");
    ("on_round_end", method (base + 4) "on_round_end") ].

(** [class AgentProtocol(Protocol)]: a class that declares the four
    callbacks; a protocol class cannot be instantiated. *)
Definition AgentProtocol : PyObj :=
  PyObject 10 true (lifecycle_methods 10)
    (Some (raise (OtherException "TypeError" "Protocols cannot be instantiated"))).

(** [class AgentBase]: the four callbacks, no [GAME]; [AgentBase()] gives an
    instance on which they are bound methods. *)
Definition AgentBase : PyObj :=
  PyObject 20 true (lifecycle_methods 20)
    (Some (ret (PyObject 25 false (lifecycle_methods 25) None))).

(** ** Files and [importlib] *)

(** The namespace of an executed module: [module.__dict__]. *)
Abbreviation Namespace := (gmap string PyObj).

(** What a path resolves to.  A regular file is given by what executing its
    text as a module called [__name__] does: it fills the module's namespace
    or raises ([SyntaxError] included), with whatever side effects. *)
Inductive FsEntry : Type :=
| Directory
| RegularFile (code : string → Py Namespace).

Record ModuleSpec : Type := mkModuleSpec {
  spec_name : string;
  spec_origin : string
}.

(** The file suffixes for which [importlib] has a loader: source, bytecode
    and extension modules. *)
Definition loader_suffixes : list string := [".py"; ".pyc"; ".so"].

(** [importlib.util.spec_from_file_location(name, location)]: [None] when no
    loader is registered for the file name. *)
Definition spec_from_file_location (name location : string) : option ModuleSpec :=
  if existsb (PyString.endswith location) loader_suffixes
  then Some (mkModuleSpec name location)
  else None.

(** [importlib.util.module_from_spec(spec)] *)
Definition module_from_spec (spec : ModuleSpec) : ModuleRef :=
  mkModuleRef (spec_name spec) (spec_origin spec).

(** [dir(module)]: the names of the namespace, sorted.  Python orders [str]
    by code point, which on UTF-8 bytes is the byte-wise lexicographic order
    [String.le]. *)
Definition dir_ (module : Namespace) : list string :=
  merge_sort String.le (map_to_list module).*1.

(** [getattr(module, name)] *)
Definition module_getattr (module : Namespace) (name : string) : Py PyObj :=
  match module !! name with
  | Some obj => ret obj
  | None => raise (OtherException "AttributeError" name)
  end.

(** [sys.modules[name] = module] *)
Definition sys_modules_set (name : string) (module : ModuleRef) : Py unit :=
  λ w, (Ret tt, set_sys_modules (insert name module) w).

(** ** The loader: [load_agent] and [get_agent_game] *)

Section Loader.

Local Open Scope py_scope.

(** [Path(p).resolve()]: the absolute path with symbolic links followed.
    Lines 140 and 209 call it, and lines 142 and 211 call [exists()],
    outside any [try]: when one of them raises ([ValueError] for a NUL
    character in the path, [OSError] for a name that is too long,
    [RuntimeError] for a loop of links) the error goes to the caller of
    [load_agent] or [get_agent_game] as it is.  [resolve] and [fs] describe
    the calls in which both return; nothing below is about the others. *)
Variable resolve : string → string.

(** The file system at the time of the call. *)
Variable fs : gmap string FsEntry.

(** [path.exists()], when it returns *)
Definition path_exists (path : string) : bool :=
  bool_decide (is_Some (fs !! path)).

(** [spec.loader.exec_module(module)]: reads the file and runs its code in
    the namespace of the new module. *)
Definition exec_module (spec : ModuleSpec) : Py Namespace :=
  match fs !! spec_origin spec with
  | Some (RegularFile code) => code (spec_name spec)
  | Some Directory =>
      raise (OtherException "IsADirectoryError" (spec_origin spec))
  | None => raise (OtherException "FileNotFoundError" (spec_origin spec))
  end.

(** Lines 168-174: the loop over [dir(module)] of [load_agent]; [PyNone]
    when the loop ends without a [break]. *)
Fixpoint scan_for_agent_class (module : Namespace) (names : list string)
    : Py PyObj :=
  match names with
  | [] => ret PyNone
  | name :: rest =>
      obj <- module_getattr module name ;;
      if isinstance_type obj && negb (py_is obj AgentBase)
      then if hasattr obj "on_turn"
           then ret obj
           else scan_for_agent_class module rest
      else scan_for_agent_class module rest
  end.

(** Lines 160-174: the value of [agent_class] after the search. *)
Definition find_agent_class (module : Namespace) : Py PyObj :=
  match module !! "Agent" with
  | Some agent => ret agent
  | None => scan_for_agent_class module (dir_ module)
  end.

(** [agent_game != expected_game] for [expected_game : str | None] *)
Definition py_ne (obj : PyObj) (expected_game : option string) : bool :=
  match expected_game with
  | Some s => py_ne_str obj s
  | None => negb (py_is obj PyNone)
  end.

(** Lines 183-188: the [GAME] check. *)
Definition check_game (agent_game : PyObj) (expected_game : option string)
    : Py unit :=
  if truthy_opt expected_game && truthy agent_game
  then if py_ne agent_game expected_game
       then raise (AgentLoadError GameMismatchSite
              ("Agent is for '" +:+ py_str agent_game
               +:+ "' but you're trying to play '"
               +:+ default "None" expected_game
               +:+ "'. Please use an agent for the correct game."))
       else ret tt
  else ret tt.

(** Lines 148-158: the [try] block that loads the module; the value is the
    namespace of the executed module. *)
Definition load_module (path : string) : Py Namespace :=
  try_except_Exception
    (match spec_from_file_location "user_agent" path with
     | None => raise (AgentLoadError NoModuleSpec
                        ("Failed to load module from: " +:+ path))
     | Some spec =>
         let module := module_from_spec spec in
         exec sys_modules_set "user_agent" module ;;
         exec_module spec
     end)
    (λ e, raise (AgentLoadError ModuleLoadFailed
                   ("Failed to load agent module: " +:+ exc_str e))).

Definition load_agent (agent_path : string) (expected_game : option string)
    : Py PyObj :=
  let path := resolve agent_path in
  if negb (path_exists path)
  then raise (AgentLoadError FileNotFound ("Agent file not found: " +:+ path))
  else
  if negb (String.eqb (PyString.suffix path) ".py")
  then raise (AgentLoadError NotPythonFile
                ("Agent file must be a Python file: " +:+ path))
  else
  (* Load the module *)
  module <- load_module path ;;
  (* Find the agent class *)
  agent_class <- find_agent_class module ;;
  if py_is agent_class PyNone
  then raise (AgentLoadError NoAgentClass
    "No agent class found. Create a class named 'Agent' with an 'on_turn' method.")
  else
  (* Check GAME property if expected_game is specified *)
  let agent_game := getattr agent_class "GAME" PyNone in
  exec check_game agent_game expected_game ;;
  (* Instantiate and return *)
  agent <- try_except_Exception (py_call agent_class)
    (λ e, raise (AgentLoadError InstantiationFailed
                   ("Failed to instantiate agent: " +:+ exc_str e))) ;;
  (* Verify it has the required method *)
  if negb (hasattr agent "on_turn")
     || negb (callable (getattr agent "on_turn" PyNone))
  then raise (AgentLoadError MissingOnTurn "Agent must have an 'on_turn' method")
  else ret agent.

(** Lines 227-230: the loop of [get_agent_game]; [Some v] is [return v],
    [None] is the loop running to its end. *)
Fixpoint scan_for_game (module : Namespace) (names : list string)
    : Py (option PyObj) :=
  match names with
  | [] => ret None
  | name :: rest =>
      obj <- module_getattr module name ;;
      if isinstance_type obj && hasattr obj "on_turn"
      then ret (Some (getattr obj "GAME" PyNone))
      else scan_for_game module rest
  end.

Definition get_agent_game (agent_path : string) : Py PyObj :=
  let path := resolve agent_path in
  if negb (path_exists path) || negb (String.eqb (PyString.suffix path) ".py")
  then ret PyNone
  else
  returned <- try_except_Exception
    (match spec_from_file_location "user_agent_check" path with
     | None => ret (Some PyNone)
     | Some spec =>
         module <- exec_module spec ;;
         (* Look for Agent class *)
         match module !! "Agent" with
         | Some agent => ret (Some (getattr agent "GAME" PyNone))
         | None =>
             (* Look for any class with GAME and on_turn *)
             scan_for_game module (dir_ module)
         end
     end)
    (λ _, ret None) ;;
  match returned with
  | Some game => ret game
  | None => ret PyNone
  end.

End Loader.

(** The state in which [load_agent] runs the code of the file at [path]:
    [w] after [sys.modules["user_agent"] = module]. *)
Definition registered (path : string) (w : World) : World :=
  set_sys_modules (insert "user_agent" (mkModuleRef "user_agent" path)) w.

(** Calling [obj] leaves the entry [sys.modules[key]] as it found it. *)
Definition call_keeps_key (key : string) (obj : PyObj) : Prop :=
  match obj with
  | PyObject _ _ _ (Some f) =>
      ∀ w r w', f w = (r, w') → sys_modules w' !! key = sys_modules w !! key
  | _ => True
  end.

(** The code of a file leaves the entry [sys.modules[key]] as it found it,
    and so does calling anything it binds in its module.  The other entries
    are free: the file may import what it likes. *)
Definition code_keeps_key (key : string) (code : string → Py Namespace) : Prop :=
  ∀ name w r w', code name w = (r, w') →
    sys_modules w' !! key = sys_modules w !! key
    ∧ ∀ module, r = Ret module →
        ∀ k obj, module !! k = Some obj → call_keeps_key key obj.

(** No class bound in the module has an [on_turn] attribute. *)
Definition no_class_with_on_turn (module : Namespace) : bool :=
  forallb (λ item, negb (isinstance_type item.2 && hasattr item.2 "on_turn"))
    (map_to_list module).

(** ** Example agent files *)

Module Examples.

(** A class statement: [attrs] is what attribute lookup finds on the
    class (its own attributes before the inherited ones), and
    instantiating it gives an object on which the same names are found. *)
Definition user_class (id : N) (attrs : list (string * PyObj)) : PyObj :=
  PyObject id true attrs (Some (ret (PyObject (id + 1) false attrs None))).

(** The names a module has before its code runs. *)
Definition module_dunders (name path : string) : Namespace :=
  {[ "__name__" := PyStr name; "__file__" := PyStr path;
     "__doc__" := PyNone; "__package__" := PyStr "" ]}.

(** [class Agent: GAME = "split-or-steal"; def on_turn(...)], as in
    [examples/simple_agent.py]. *)
Definition SimpleAgent : PyObj :=
  user_class 100
    [("GAME", PyStr "split-or-steal"); ("on_turn", method 102 "on_turn")].

Definition simple_agent_py : FsEntry :=
  RegularFile (λ name,
    ret (<["Agent" := SimpleAgent]>
           (module_dunders name "/agents/simple_agent.py"))).

(** As in [examples/nil_recruitment_agent.py]: [GAME = "nil-recruitment"],
    and [__init__] creates an API client. *)
Definition OpenAIAgent_attrs : list (string * PyObj) :=
  [("GAME", PyStr "nil-recruitment"); ("on_turn", method 402 "on_turn")].

Definition OpenAIAgent : PyObj :=
  PyObject 400 true OpenAIAgent_attrs
    (Some (λ w, (Ret (PyObject 401 false OpenAIAgent_attrs None),
                 log_effect "OpenAI()" w))).

Definition openai_agent_py : FsEntry :=
  RegularFile (λ name,
    ret (<["Agent" := OpenAIAgent]>
           (module_dunders name "/agents/openai_agent.py"))).

(** [from agentduel_agents import AgentBase]
    [class MyBot(AgentBase): GAME = "coin-flip"; def on_turn(...)] *)
Definition MyBot : PyObj :=
  user_class 200
    (("GAME", PyStr "coin-flip") :: ("on_turn", method 202 "on_turn")
      :: lifecycle_methods 20).

Definition my_bot_py : FsEntry :=
  RegularFile (λ name,
    ret (<["AgentBase" := AgentBase]> (<["MyBot" := MyBot]>
           (module_dunders name "/agents/my_bot.py")))).

(** [from agentduel_agents import AgentProtocol]
    [class ProtoBot(AgentProtocol): def on_turn(...)] *)
Definition ProtoBot : PyObj :=
  user_class 300 (("on_turn", method 302 "on_turn") :: lifecycle_methods 10).

Definition proto_bot_py : FsEntry :=
  RegularFile (λ name,
    ret (<["AgentProtocol" := AgentProtocol]> (<["ProtoBot" := ProtoBot]>
           (module_dunders name "/agents/proto_bot.py")))).

(** The same file without the import: [class ProtoBot: def on_turn(...)] *)
Definition plain_bot_py : FsEntry :=
  RegularFile (λ name,
    ret (<["ProtoBot" := ProtoBot]>
           (module_dunders name "/agents/plain_bot.py"))).

(** [import sys; sys.exit(1)] at the top of the file *)
Definition exits_py : FsEntry :=
  RegularFile (λ _, raise (ExitException "SystemExit" "1")).

(** A file that does not parse *)
Definition broken_py : FsEntry :=
  RegularFile (λ _, raise (OtherException "SyntaxError" "invalid syntax")).

(** [class Config: DEBUG = False] and [def helper(): ...]: no class with
    [on_turn] *)
Definition Config : PyObj := user_class 500 [("DEBUG", PyBool false)].

Definition helpers_py : FsEntry :=
  RegularFile (λ name,
    ret (<["Config" := Config]> (<["helper" := method 510 "helper"]>
           (module_dunders name "/agents/helpers.py")))).

(** [class Agent: def __init__(self, name): ...] (no [on_turn]) next to
    [class GoodBot: def on_turn(...)] *)
Definition NeedsName : PyObj :=
  PyObject 600 true []
    (Some (raise (OtherException "TypeError"
             "Agent.__init__() missing 1 required positional argument: 'name'"))).

Definition GoodBot : PyObj := user_class 610 [("on_turn", method 612 "on_turn")].

Definition shadowed_py : FsEntry :=
  RegularFile (λ name,
    ret (<["Agent" := NeedsName]> (<["GoodBot" := GoodBot]>
           (module_dunders name "/agents/shadowed.py")))).

(** [class Agent: GAME = ""; def on_turn(...)] *)
Definition Untagged : PyObj :=
  user_class 700 [("GAME", PyStr ""); ("on_turn", method 702 "on_turn")].

Definition untagged_py : FsEntry :=
  RegularFile (λ name,
    ret (<["Agent" := Untagged]> (module_dunders name "/agents/untagged.py"))).

(** [class GoodBot: def on_turn(...)] and [def Agent(): return GoodBot()]:
    the name [Agent] is bound to a function, not to a class. *)
Definition make_agent : PyObj :=
  PyObject 800 false []
    (Some (ret (PyObject 611 false [("on_turn", method 612 "on_turn")] None))).

Definition factory_py : FsEntry :=
  RegularFile (λ name,
    ret (<["Agent" := make_agent]> (<["GoodBot" := GoodBot]>
           (module_dunders name "/agents/factory.py")))).

(** [class Agent] whose [__init__] calls [sys.exit(2)], next to
    [class GoodBot: def on_turn(...)] *)
Definition ExitingAgent : PyObj :=
  PyObject 900 true [("on_turn", method 902 "on_turn")]
    (Some (raise (ExitException "SystemExit" "2"))).

Definition exiting_agent_py : FsEntry :=
  RegularFile (λ name,
    ret (<["Agent" := ExitingAgent]> (<["GoodBot" := GoodBot]>
           (module_dunders name "/agents/exiting_agent.py")))).

(** [import json] at the top of a file with the class of [simple_agent.py]:
    the import binds the name [json] in the module and registers the
    imported module in [sys.modules]. *)
Definition json_module : PyObj := PyObject 950 false [] None.

Definition importing_py : FsEntry :=
  RegularFile (λ name w,
    (Ret (<["Agent" := SimpleAgent]> (<["json" := json_module]>
            (module_dunders name "/agents/importing.py"))),
     set_sys_modules
       (insert "json" (mkModuleRef "json" "/usr/lib/python3.11/json/__init__.py"))
       w)).

(** [import sys], [print("user_agent" in sys.modules)] and the class of
    [simple_agent.py]: the file reports whether the loader has registered
    a module under that name by the time its code runs. *)
Definition probe_py : FsEntry :=
  RegularFile (λ name w,
    (Ret (<["Agent" := SimpleAgent]> (module_dunders name "/agents/probe.py")),
     log_effect (if bool_decide (is_Some (sys_modules w !! "user_agent"))
                 then "print: True" else "print: False") w)).

Definition disk : gmap string FsEntry :=
  {[ "/agents/simple_agent.py" := simple_agent_py;
     "/agents/openai_agent.py" := openai_agent_py;
     "/agents/my_bot.py" := my_bot_py;
     "/agents/proto_bot.py" := proto_bot_py;
     "/agents/plain_bot.py" := plain_bot_py;
     "/agents/exits.py" := exits_py;
     "/agents/broken.py" := broken_py;
     "/agents/helpers.py" := helpers_py;
     "/agents/shadowed.py" := shadowed_py;
     "/agents/untagged.py" := untagged_py;
     "/agents/.py" := simple_agent_py;
     "/agents/notes.txt" := simple_agent_py;
     "/agents" := Directory ]}.

(** The same directory with the four files above added. *)
Definition disk' : gmap string FsEntry :=
  <["/agents/factory.py" := factory_py]>
    (<["/agents/exiting_agent.py" := exiting_agent_py]>
       (<["/agents/importing.py" := importing_py]>
          (<["/agents/probe.py" := probe_py]> disk))).

(** A fresh interpreter: nothing registered, nothing done. *)
Definition world0 : World := mkWorld ∅ [].

End Examples.

(** ** [examples/multi_game_agent.py]: game detection and dispatch *)

Module MultiGame.

(** The values of the payload dictionaries the host sends (decoded JSON)
    and of the actions the agent answers with.  A [dict] nested in a value
    keeps its items in insertion order. *)
#[local] Unset Elimination Schemes.
Inductive Value : Type :=
| VNone
| VBool (b : bool)
| VInt (z : Z)
| VStr (s : string)
| VList (items : list Value)
| VDict (items : list (string * Value)).
#[local] Set Elimination Schemes.

(** A payload: [match_info], [round_info], [game_state]. *)
Abbreviation Dict := (gmap string Value).

(** [d.get(key, default)] *)
Definition dict_get (d : Dict) (key : string) (dflt : Value) : Value :=
  default dflt (d !! key).

(** [key in d] *)
Definition dict_contains (d : Dict) (key : string) : bool :=
  bool_decide (is_Some (d !! key)).

(** [v == s] for a string literal [s] *)
Definition eq_str (v : Value) (s : string) : bool :=
  match v with
  | VStr t => String.eqb t s
  | _ => false
  end.

(** [v is None] *)
Definition is_None (v : Value) : bool :=
  match v with
  | VNone => true
  | _ => false
  end.

(** The number of code points of a UTF-8 string: the bytes that are not
    continuation bytes ([0x80]-[0xBF]). *)
Fixpoint str_len (s : string) : nat :=
  match s with
  | EmptyString => 0
  | String a s' =>
      let n := Ascii.N_of_ascii a in
      if (128 <=? n)%N && (n <? 192)%N then str_len s' else S (str_len s')
  end.

(** [len(v)]; [TypeError] for a value that has no length. *)
Definition py_len (v : Value) : Outcome nat :=
  match v with
  | VStr s => Ret (str_len s)
  | VList items => Ret (length items)
  | VDict items => Ret (length items)
  | _ => Raise (OtherException "TypeError" "object has no len()")
  end.

(** The attributes set by [__init__]. *)
Record Agent : Type := mkAgent {
  round_number : Value;
  current_game_type : Value;
  all_game_rules : Value
}.

(** Lines 20-23 *)
Definition __init__ : Agent :=
  {| round_number := VInt 0;
     current_game_type := VNone;
     all_game_rules := VDict [] |}.

(** What [print] wrote: the values interpolated into the line. *)
Inductive Output : Type :=
| RoundStarting (round_number game_type : Value).

(** Lines 44-49 *)
Definition on_round_start (self : Agent) (round_info : Dict) : Agent * list Output :=
  let self1 :=
    {| round_number := dict_get round_info "round_number" (VInt 1);
       current_game_type := current_game_type self;
       all_game_rules := all_game_rules self |} in
  (* Detect game type from the game_id field *)
  let self2 :=
    {| round_number := round_number self1;
       current_game_type := dict_get round_info "game_id" (VStr "split-or-steal");
       all_game_rules := all_game_rules self1 |} in
  (self2, [RoundStarting (round_number self2) (current_game_type self2)]).

(** Lines 72-91 *)
Definition _handle_split_or_steal (game_state : Dict) (phase : Value)
    : Outcome Value :=
  if eq_str phase "negotiate" then
    let messages := dict_get game_state "messages" (VList []) in
    (* Send cooperative messages *)
    match py_len messages with
    | Raise e => Raise e
    | Ret n =>
        let text :=
          if (n =? 0)%nat then "Hello! Let's cooperate and both split."
          else if (n =? 1)%nat then "I'm committed to splitting. Let's both win!"
          else "Agreed. Splitting it is." in
        Ret (VDict [("type", VStr "message"); ("text", VStr text)])
    end
  else if eq_str phase "commit" then
    (* Always split - cooperative strategy *)
    Ret (VDict [("type", VStr "commit"); ("choice", VStr "split")])
  else Ret (VDict [("type", VStr "message"); ("text", VStr "")]).

Section Dispatch.

(** Lines 93-159, the bidding heuristic of Liar's Dice.  It compares a
    quantity with [total_dice * 0.5], a float; it reads the payload only
    and leaves [self] alone.  The dispatch is stated for any such
    handler. *)
Variable _handle_liars_dice : Dict → Value → Outcome Value.

(** Lines 51-70: returns the action (or raises) and [self] as the call
    left it. *)
Definition on_turn (self : Agent) (game_state : Dict) : Outcome Value * Agent :=
  let phase := dict_get game_state "phase" VNone in
  (* Detect game type from the state if not set *)
  let self' :=
    if is_None (current_game_type self) then
      if dict_contains game_state "your_dice"
      then {| round_number := round_number self;
              current_game_type := VStr "liars-dice";
              all_game_rules := all_game_rules self |}
      else {| round_number := round_number self;
              current_game_type := VStr "split-or-steal";
              all_game_rules := all_game_rules self |}
    else self in
  if eq_str (current_game_type self') "liars-dice"
  then (_handle_liars_dice game_state phase, self')
  else (_handle_split_or_steal game_state phase, self').

End Dispatch.

(** A payload that names only its phase: neither [your_dice] (Liar's Dice)
    nor [messages] (Split or Steal) is present. *)
Definition bare_commit : Dict :=
  {[ "phase" := VStr "commit"; "round_number" := VInt 1 ]}.

(** A stand-in for the Liar's Dice handler in examples: it challenges. *)
Definition always_challenge (_ : Dict) (_ : Value) : Outcome Value :=
  Ret (VDict [("action_type", VStr "challenge")]).

(** *** Values as Python operates on them

    The numbers of a payload are [int]s and [bool]s; a payload that carries
    a JSON float is outside [Value]. *)

(** The integer a number is; [bool] is a subclass of [int]. *)
Definition as_int (v : Value) : option Z :=
  match v with
  | VInt z => Some z
  | VBool b => Some (if b then 1 else 0)%Z
  | _ => None
  end.

Fixpoint assoc_value (key : string) (items : list (string * Value))
    : option Value :=
  match items with
  | [] => None
  | (k, v) :: rest => if String.eqb k key then Some v else assoc_value key rest
  end.

(** [a == b]: numbers by value, strings and lists item by item, dicts by
    their items whatever the order. *)
Fixpoint py_eq (a b : Value) {struct a} : bool :=
  match a with
  | VNone => match b with VNone => true | _ => false end
  | VBool _ | VInt _ =>
      match as_int a, as_int b with
      | Some x, Some y => (x =? y)%Z
      | _, _ => false
      end
  | VStr s => match b with VStr t => String.eqb s t | _ => false end
  | VList xs =>
      match b with
      | VList ys =>
          (fix all2 (xs ys : list Value) : bool :=
             match xs, ys with
             | [], [] => true
             | x :: xs', y :: ys' => py_eq x y && all2 xs' ys'
             | _, _ => false
             end) xs ys
      | _ => false
      end
  | VDict d =>
      match b with
      | VDict d' =>
          (length d =? length d')%nat
          && (fix all (d : list (string * Value)) : bool :=
                match d with
                | [] => true
                | (k, v) :: rest =>
                    match assoc_value k d' with
                    | Some v' => py_eq v v'
                    | None => false
                    end && all rest
                end) d
      | _ => false
      end
  end.

Definition not_comparable {A} : Outcome A :=
  Raise (OtherException "TypeError" "'<' not supported between instances").

(** [a < b]: defined between numbers, between strings (by code point) and
    between lists (at the first pair of items that differ, else by length);
    [TypeError] otherwise. *)
Fixpoint py_lt (a b : Value) {struct a} : Outcome bool :=
  match a with
  | VBool _ | VInt _ =>
      match as_int a, as_int b with
      | Some x, Some y => Ret (x <? y)%Z
      | _, _ => not_comparable
      end
  | VStr s => match b with VStr t => Ret (String.ltb s t) | _ => not_comparable end
  | VList xs =>
      match b with
      | VList ys =>
          (fix go (xs ys : list Value) : Outcome bool :=
             match xs, ys with
             | [], [] => Ret false
             | [], _ :: _ => Ret true
             | _ :: _, [] => Ret false
             | x :: xs', y :: ys' =>
                 if py_eq x y then go xs' ys' else py_lt x y
             end) xs ys
      | _ => not_comparable
      end
  | _ => not_comparable
  end.

(** [a > b] *)
Fixpoint py_gt (a b : Value) {struct a} : Outcome bool :=
  match a with
  | VBool _ | VInt _ =>
      match as_int a, as_int b with
      | Some x, Some y => Ret (y <? x)%Z
      | _, _ => not_comparable
      end
  | VStr s => match b with VStr t => Ret (String.ltb t s) | _ => not_comparable end
  | VList xs =>
      match b with
      | VList ys =>
          (fix go (xs ys : list Value) : Outcome bool :=
             match xs, ys with
             | [], [] => Ret false
             | [], _ :: _ => Ret false
             | _ :: _, [] => Ret true
             | x :: xs', y :: ys' =>
                 if py_eq x y then go xs' ys' else py_gt x y
             end) xs ys
      | _ => not_comparable
      end
  | _ => not_comparable
  end.

(** [v + n] for an [int] literal [n]: only a number can be added to. *)
Definition py_add_int (v : Value) (n : Z) : Outcome Value :=
  match as_int v with
  | Some z => Ret (VInt (z + n))
  | None => Raise (OtherException "TypeError" "unsupported operand type(s) for +")
  end.

(** [min(n, v)] for an [int] [n]: [v] if [v < n], else [n]. *)
Definition py_min_int (n : Z) (v : Value) : Outcome Value :=
  match py_lt v (VInt n) with
  | Ret true => Ret v
  | Ret false => Ret (VInt n)
  | Raise e => Raise e
  end.

(** The characters of a UTF-8 string: each byte that is not a continuation
    byte starts one. *)
Fixpoint chars_go (cur : option string) (s : string) : list string :=
  match s with
  | EmptyString => match cur with Some c => [c] | None => [] end
  | String a s' =>
      let n := Ascii.N_of_ascii a in
      if (128 <=? n)%N && (n <? 192)%N
      then chars_go (Some (default "" cur +:+ String a "")) s'
      else match cur with
           | Some c => c :: chars_go (Some (String a "")) s'
           | None => chars_go (Some (String a "")) s'
           end
  end.

Definition str_chars (s : string) : list string := chars_go None s.

(** [iter(v)]: the items of a list, the characters of a string, the keys of
    a dict; [TypeError] for what is not iterable. *)
Definition py_iter (v : Value) : Outcome (list Value) :=
  match v with
  | VList items => Ret items
  | VStr s => Ret (VStr <$> str_chars s)
  | VDict items => Ret ((λ item, VStr item.1) <$> items)
  | _ => Raise (OtherException "TypeError" "object is not iterable")
  end.

(** [v.get(key, default)] on a value that may not be a dict *)
Definition value_get (v : Value) (key : string) (dflt : Value) : Outcome Value :=
  match v with
  | VDict items => Ret (default dflt (assoc_value key items))
  | _ => Raise (OtherException "AttributeError" "object has no attribute 'get'")
  end.

(** Lists and dicts cannot be dict keys. *)
Definition hashable (v : Value) : bool :=
  match v with
  | VList _ | VDict _ => false
  | _ => true
  end.

(** *** Floats, as far as [total_dice * 0.5] needs them *)

(** [float(n)] for [n >= 0]: [n] rounded to 53 significant bits, ties to
    even.  The result is an integer. *)
Definition round53 (n : Z) : Z :=
  let bits := (Z.log2 n + 1)%Z in
  if (bits <=? 53)%Z then n
  else
    let e := (bits - 53)%Z in
    let q := Z.shiftr n e in
    let r := Z.land n (Z.ones e) in
    let half := Z.shiftl 1 (e - 1) in
    let q' := if (half <? r)%Z || ((r =? half)%Z && Z.odd q) then (q + 1)%Z else q in
    Z.shiftl q' e.

(** [float(z)]; [OverflowError] beyond the range of a double. *)
Definition float_of_int (z : Z) : Outcome Z :=
  let m := round53 (Z.abs z) in
  if (2 ^ 1024 <=? m)%Z
  then Raise (OtherException "OverflowError" "int too large to convert to float")
  else Ret (Z.sgn z * m)%Z.

(** [v * 0.5].  Halving a double is exact, so the product is given by its
    double, the integer [float(v)]. *)
Definition py_mul_half (v : Value) : Outcome Z :=
  match as_int v with
  | Some t => float_of_int t
  | None => Raise (OtherException "TypeError" "can't multiply by non-int of type 'float'")
  end.

(** [v > f] for the float [f] whose double is [f2]: Python compares an
    [int] with a [float] exactly. *)
Definition py_gt_float (v : Value) (f2 : Z) : Outcome bool :=
  match as_int v with
  | Some q => Ret (f2 <? 2 * q)%Z
  | None => Raise (OtherException "TypeError" "'>' not supported between instances")
  end.

(** *** The Liar's Dice handler *)

(** The dict [counts] of lines 106-109, items in insertion order. *)
Fixpoint counts_get (counts : list (Value * Z)) (d : Value) : Z :=
  match counts with
  | [] => 0
  | (k, n) :: rest => if py_eq k d then n else counts_get rest d
  end.

Fixpoint counts_set (counts : list (Value * Z)) (d : Value) (n : Z)
    : list (Value * Z) :=
  match counts with
  | [] => [(d, n)]
  | (k, m) :: rest =>
      if py_eq k d then (k, n) :: rest else (k, m) :: counts_set rest d n
  end.

(** Lines 107-109: the loop that counts the faces that are not wild. *)
Fixpoint count_faces (dice : list Value) (counts : list (Value * Z))
    : Outcome (list (Value * Z)) :=
  match dice with
  | [] => Ret counts
  | d :: rest =>
      if negb (py_eq d (VInt 1))
      then if hashable d
           then count_faces rest (counts_set counts d (counts_get counts d + 1))
           else Raise (OtherException "TypeError" "unhashable type")
      else count_faces rest counts
  end.

(** [max(counts.keys(), key=lambda f: counts[f])]: the first key with the
    greatest count. *)
Fixpoint max_by_count (best : Value * Z) (rest : list (Value * Z)) : Value * Z :=
  match rest with
  | [] => best
  | item :: rest' =>
      if (best.2 <? item.2)%Z then max_by_count item rest'
      else max_by_count best rest'
  end.

(** [sum(1 for d in my_dice if d == 1)] *)
Definition count_wilds (dice : list Value) : Z :=
  Z.of_nat (length (filter (λ d, py_eq d (VInt 1) = true) dice)).

Definition challenge : Value := VDict [("action_type", VStr "challenge")].

Definition bid (quantity face : Value) : Value :=
  VDict [("action_type", VStr "bid"); ("quantity", quantity); ("face", face)].

(** Lines 93-159 *)
Definition _handle_liars_dice (game_state : Dict) (phase : Value)
    : Outcome Value :=
  if negb (eq_str phase "bid") then
    (* Game over or reveal phase *)
    Ret challenge
  else
  let current_bid := dict_get game_state "current_bid" VNone in
  let my_dice := dict_get game_state "your_dice" (VList []) in
  let total_dice := dict_get game_state "total_dice" (VInt 10) in
  if is_None current_bid then
    (* Opening bid - bid conservatively based on our dice *)
    match py_iter my_dice with
    | Raise e => Raise e
    | Ret dice =>
        match count_faces dice [] with
        | Raise e => Raise e
        | Ret [] =>
            (* All wilds - bid 2 sixes *)
            Ret (bid (VInt 2) (VInt 6))
        | Ret (first :: others) =>
            (* Bid our most common face value *)
            let (best_face, best_count) := max_by_count first others in
            (* Add wilds *)
            let wilds := count_wilds dice in
            match py_min_int (best_count + wilds) total_dice with
            | Raise e => Raise e
            | Ret quantity => Ret (bid quantity best_face)
            end
        end
    end
  else
    (* Responding to a bid - decide whether to raise or challenge *)
    match value_get current_bid "quantity" (VInt 1) with
    | Raise e => Raise e
    | Ret bid_quantity =>
    match value_get current_bid "face" (VInt 6) with
    | Raise e => Raise e
    | Ret bid_face =>
    (* Count how many of the bid face we have (including wilds) *)
    match py_iter my_dice with
    | Raise e => Raise e
    | Ret _ =>
    match py_mul_half total_dice with
    | Raise e => Raise e
    | Ret half2 =>
    match py_gt_float bid_quantity half2 with
    | Raise e => Raise e
    | Ret true =>
        (* Challenge high bids *)
        Ret challenge
    | Ret false =>
        (* Try to raise the bid *)
        match py_lt bid_face (VInt 6) with
        | Raise e => Raise e
        | Ret true =>
            (* Raise face value, keep quantity *)
            match py_add_int bid_face 1 with
            | Raise e => Raise e
            | Ret face => Ret (bid bid_quantity face)
            end
        | Ret false =>
            (* At max face, must raise quantity *)
            match py_lt bid_quantity total_dice with
            | Raise e => Raise e
            | Ret true =>
                match py_add_int bid_quantity 1 with
                | Raise e => Raise e
                | Ret quantity => Ret (bid quantity (VInt 2))
                end
            | Ret false =>
                (* Can't raise further, must challenge *)
                Ret challenge
            end
        end
    end end end end end.

(** [Agent.on_turn] with the handler of the file. *)
Definition Agent_on_turn : Agent → Dict → Outcome Value * Agent :=
  on_turn _handle_liars_dice.

(** *** [on_round_end] *)

(** The line [on_round_end] prints: the values interpolated into it. *)
Inductive RoundEndLine : Type :=
| RoundEnded (round_num : Value) (outcome : string)
    (game_id your_pts opp_pts : Value).

(** Lines 161-175; [self] is read, not changed. *)
Definition on_round_end (self : Agent) (result : Dict) : Outcome RoundEndLine :=
  let game_id := dict_get result "game_id" (current_game_type self) in
  let your_pts := dict_get result "your_points" (VInt 0) in
  let opp_pts := dict_get result "opponent_points" (VInt 0) in
  match py_gt your_pts opp_pts with
  | Raise e => Raise e
  | Ret won =>
      match (if won then Ret "Won"
             else match py_lt your_pts opp_pts with
                  | Raise e => Raise e
                  | Ret true => Ret "Lost"
                  | Ret false => Ret "Draw"
                  end) with
      | Raise e => Raise e
      | Ret outcome =>
          let round_num := dict_get result "round_number" VNone in
          Ret (RoundEnded round_num outcome game_id your_pts opp_pts)
      end
  end.

End MultiGame.

(** ** Predicates used in the statements *)

(** The test of lines 170-172: a class, not [AgentBase] itself, that has an
    [on_turn] attribute. *)
Definition eligible (obj : PyObj) : bool :=
  isinstance_type obj && negb (py_is obj AgentBase) && hasattr obj "on_turn".

(** The condition of lines 183-184 under which the [GAME] check raises. *)
Definition game_mismatch (agent_game : PyObj) (expected_game : option string)
    : bool :=
  truthy_opt expected_game && truthy agent_game && py_ne agent_game expected_game.

(** What the two searches look at in an object bound in the module: whether
    it is a class, whether it is [AgentBase], whether it has [on_turn], and
    its [GAME]. *)
Definition scan_view (obj : PyObj) : bool * bool * bool * PyObj :=
  (isinstance_type obj, py_is obj AgentBase, hasattr obj "on_turn",
   getattr obj "GAME" PyNone).

(** Two namespaces bind the same names, each to objects that the searches
    cannot tell apart.  The namespaces themselves may differ: a module run
    under two names has two values of [__name__], and defines its classes
    anew on each run. *)
Definition same_for_scans (module module' : Namespace) : Prop :=
  scan_view <$> module = scan_view <$> module'.

(** How many of the dice [zs] show the face [z] *)
Definition occ (z : Z) (zs : list Z) : Z :=
  Z.of_nat (length (filter (λ x, x = z) zs)).

(** A dict [counts] whose keys are all [int]s *)
Definition int_keys (counts : list (MultiGame.Value * Z)) : Prop :=
  Forall (λ item, ∃ k, item.1 = MultiGame.VInt k) counts.

(** * Properties *)

(** ** Paths *)

Example suffix_agent : PyString.suffix "/srv/agents/my_agent.py" = ".py".
Proof. reflexivity. Qed.
Example suffix_hidden : PyString.suffix "/srv/agents/.py" = "".
Proof. reflexivity. Qed.
Example suffix_txt : PyString.suffix "/srv/agents/notes.txt" = ".txt".
Proof. reflexivity. Qed.
Example suffix_no_dot : PyString.suffix "/srv/agents.d/agent" = "".
Proof. reflexivity. Qed.

Lemma append_nil (b : string) : "" +:+ b = b.
Proof. reflexivity. Qed.

Lemma append_cons x (a b : string) : String x a +:+ b = String x (a +:+ b).
Proof. reflexivity. Qed.

Lemma append_assoc (a b c : string) : (a +:+ b) +:+ c = a +:+ b +:+ c.
Proof.
  induction a as [|x a IH]; [done|]. rewrite !append_cons. by f_equal.
Qed.

Lemma rsplit_app c s pre post :
  PyString.rsplit c s = Some (pre, post) → s = pre +:+ post.
Proof.
  revert pre post. induction s as [|a s IH]; intros pre post; simpl; [done|].
  destruct (PyString.rsplit c s) as [[pre' post']|] eqn:E.
  - intros [= <- <-]. rewrite append_cons. by rewrite (IH pre' post').
  - destruct (Ascii.eqb a c); [|done]. by intros [= <- <-].
Qed.

Lemma name_is_tail path : ∃ pre, path = pre +:+ PyString.name path.
Proof.
  unfold PyString.name.
  destruct (PyString.rsplit "/" path) as [[pre post]|] eqn:E.
  - apply rsplit_app in E. destruct post as [|a tail].
    + by exists "".
    + exists (pre +:+ String a ""). rewrite E. symmetry. apply append_assoc.
  - by exists "".
Qed.

Lemma suffix_is_tail path :
  PyString.suffix path ≠ "" → ∃ pre, path = pre +:+ PyString.suffix path.
Proof.
  unfold PyString.suffix. destruct (name_is_tail path) as [dir Hdir].
  destruct (PyString.rsplit "." (PyString.name path)) as [[stem ext]|] eqn:E;
    [|done].
  destruct (_ && _); [|done]. intros _.
  apply rsplit_app in E. exists (dir +:+ stem).
  by rewrite append_assoc, <- E.
Qed.

Lemma length_append (a b : string) :
  String.length (a +:+ b) = String.length a + String.length b.
Proof.
  induction a as [|x a IH]; [done|]. rewrite append_cons. simpl. by f_equal.
Qed.

Lemma substring_all (s : string) : String.substring 0 (String.length s) s = s.
Proof. induction s as [|x s IH]; simpl; [done | by f_equal]. Qed.

Lemma substring_tail (pre s : string) :
  String.substring (String.length pre) (String.length s) (pre +:+ s) = s.
Proof.
  induction pre as [|x pre IH]; [apply substring_all|].
  rewrite append_cons. simpl. done.
Qed.

Lemma endswith_app (pre suf : string) : PyString.endswith (pre +:+ suf) suf = true.
Proof.
  unfold PyString.endswith. rewrite length_append.
  replace (String.length pre + String.length suf - String.length suf)
    with (String.length pre) by lia.
  rewrite substring_tail, String.eqb_refl, andb_true_r.
  apply Nat.leb_le. lia.
Qed.

(** A path that [pathlib] gives the suffix [".py"] ends in [".py"]. *)
Lemma suffix_py_endswith path :
  PyString.suffix path = ".py" → PyString.endswith path ".py" = true.
Proof.
  intros H. destruct (suffix_is_tail path) as [pre Hpre]; [by rewrite H|].
  rewrite H in Hpre. rewrite Hpre. apply endswith_app.
Qed.

(** For such a path [importlib] always has a loader: line 152 is dead. *)
Lemma spec_for_py name path :
  PyString.suffix path = ".py" →
  spec_from_file_location name path = Some (mkModuleSpec name path).
Proof.
  intros H. unfold spec_from_file_location, loader_suffixes. simpl.
  by rewrite (suffix_py_endswith _ H).
Qed.

(** ** The loader, step by step *)

Ltac py_unfold :=
  cbv beta iota delta
    [bind try_except_Exception raise ret module_getattr sys_modules_set] in *.

Section LoaderFacts.

Context (resolve : string → string) (fs : gmap string FsEntry).

Lemma path_exists_lookup path entry :
  fs !! path = Some entry → path_exists fs path = true.
Proof. intros H. unfold path_exists. apply bool_decide_eq_true. by eexists. Qed.

Lemma path_exists_false path :
  path_exists fs path = false ↔ fs !! path = None.
Proof.
  unfold path_exists. rewrite bool_decide_eq_false.
  split; [apply eq_None_not_Some | intros -> [? ?]; done].
Qed.

(** The [try] block of [load_agent] on a Python file: the module is
    registered, then the code runs; an [Exception] is wrapped. *)
Lemma load_module_file path code w :
  PyString.suffix path = ".py" →
  fs !! path = Some (RegularFile code) →
  load_module fs path w =
    match code "user_agent" (registered path w) with
    | (Ret module, w1) => (Ret module, w1)
    | (Raise e, w1) =>
        if is_Exception e
        then (Raise (AgentLoadError ModuleLoadFailed
                       ("Failed to load agent module: " +:+ exc_str e)), w1)
        else (Raise e, w1)
    end.
Proof.
  intros Hsuf Hfile. unfold load_module. rewrite (spec_for_py _ _ Hsuf).
  py_unfold. unfold exec_module. simpl. rewrite Hfile.
  fold (registered path w). by destruct (code "user_agent" _) as [[?|?] ?].
Qed.

Lemma load_module_ret path code w module w1 :
  PyString.suffix path = ".py" →
  fs !! path = Some (RegularFile code) →
  code "user_agent" (registered path w) = (Ret module, w1) →
  load_module fs path w = (Ret module, w1).
Proof. intros Hsuf Hfile Hrun. by rewrite (load_module_file _ code), Hrun. Qed.

(** [dir(module)] lists exactly the names bound in the module. *)
Lemma elem_of_dir (module : Namespace) name :
  name ∈ dir_ module ↔ is_Some (module !! name).
Proof.
  unfold dir_. rewrite merge_sort_Permutation, list_elem_of_fmap. split.
  - intros [[k v] [-> Hin]]. apply elem_of_map_to_list in Hin. by eexists.
  - intros [v Hv]. exists (name, v). split; [done|].
    by apply elem_of_map_to_list.
Qed.

(** The scan of [load_agent] reads the module and nothing else: on names
    of the module it returns, in the state it started in. *)
Lemma scan_for_agent_class_pure (module : Namespace) names w :
  Forall (λ name, is_Some (module !! name)) names →
  ∃ obj, scan_for_agent_class module names w = (Ret obj, w).
Proof.
  induction 1 as [|name rest [obj Hobj] _ IH];
    cbn [scan_for_agent_class]; [by eexists|].
  py_unfold. rewrite Hobj. py_unfold.
  destruct (isinstance_type obj && negb (py_is obj AgentBase));
    [destruct (hasattr obj "on_turn")|]; first [exact IH | by eexists].
Qed.

Lemma dir_bound (module : Namespace) :
  Forall (λ name, is_Some (module !! name)) (dir_ module).
Proof. apply Forall_forall. intros name. by rewrite elem_of_dir. Qed.

Lemma find_agent_class_pure (module : Namespace) w :
  ∃ obj, find_agent_class module w = (Ret obj, w).
Proof.
  unfold find_agent_class. destruct (module !! "Agent") as [a|].
  - by exists a.
  - apply scan_for_agent_class_pure, dir_bound.
Qed.

(** Without a class that has [on_turn] the scan finds nothing. *)
Lemma scan_for_agent_class_none (module : Namespace) names w :
  Forall (λ name, is_Some (module !! name)) names →
  (∀ name obj, module !! name = Some obj →
     isinstance_type obj = true → hasattr obj "on_turn" = false) →
  scan_for_agent_class module names w = (Ret PyNone, w).
Proof.
  intros Hnames Hno.
  induction Hnames as [|name rest [obj Hobj] _ IH];
    cbn [scan_for_agent_class]; [done|].
  py_unfold. rewrite Hobj. py_unfold.
  destruct (isinstance_type obj) eqn:Hty; [|done].
  rewrite (Hno _ _ Hobj Hty). by destruct (true && negb _).
Qed.

(** The [GAME] check raises or passes; it does nothing else. *)
Lemma check_game_cases agent_game expected_game w :
  check_game agent_game expected_game w = (Ret tt, w)
  ∨ (∃ msg, check_game agent_game expected_game w
              = (Raise (AgentLoadError GameMismatchSite msg), w)).
Proof.
  unfold check_game. py_unfold.
  destruct (truthy_opt expected_game && truthy agent_game); [|by left].
  destruct (py_ne agent_game expected_game); [right; by eexists | by left].
Qed.

Lemma check_game_mismatch agent_game expected_game w :
  game_mismatch agent_game expected_game = true →
  ∃ msg, check_game agent_game expected_game w
           = (Raise (AgentLoadError GameMismatchSite msg), w).
Proof.
  unfold game_mismatch, check_game. intros H.
  apply andb_true_iff in H as [-> ->]. by eexists.
Qed.

Lemma check_game_pass agent_game expected_game w :
  game_mismatch agent_game expected_game = false →
  check_game agent_game expected_game w = (Ret tt, w).
Proof.
  unfold game_mismatch, check_game. intros H.
  destruct (truthy_opt expected_game && truthy agent_game); [|done].
  simpl in H. by rewrite H.
Qed.

(** [load_agent] once the module has been executed and the search has
    settled on [agent_class]. *)
Lemma load_agent_candidate agent_path expected_game w code module w1 agent_class :
  fs !! resolve agent_path = Some (RegularFile code) →
  PyString.suffix (resolve agent_path) = ".py" →
  code "user_agent" (registered (resolve agent_path) w) = (Ret module, w1) →
  find_agent_class module w1 = (Ret agent_class, w1) →
  load_agent resolve fs agent_path expected_game w =
    if py_is agent_class PyNone
    then (Raise (AgentLoadError NoAgentClass
      "No agent class found. Create a class named 'Agent' with an 'on_turn' method."), w1)
    else
      match check_game (getattr agent_class "GAME" PyNone) expected_game w1 with
      | (Raise e, w2) => (Raise e, w2)
      | (Ret _, w2) =>
          match py_call agent_class w2 with
          | (Ret agent, w3) =>
              if negb (hasattr agent "on_turn")
                 || negb (callable (getattr agent "on_turn" PyNone))
              then (Raise (AgentLoadError MissingOnTurn
                             "Agent must have an 'on_turn' method"), w3)
              else (Ret agent, w3)
          | (Raise e, w3) =>
              if is_Exception e
              then (Raise (AgentLoadError InstantiationFailed
                             ("Failed to instantiate agent: " +:+ exc_str e)), w3)
              else (Raise e, w3)
          end
      end.
Proof.
  intros Hfile Hsuf Hrun Hfind. unfold load_agent.
  rewrite (path_exists_lookup _ _ Hfile), Hsuf. simpl.
  unfold bind at 1. rewrite (load_module_ret _ code w module w1) by done.
  unfold bind at 1. rewrite Hfind.
  destruct (py_is agent_class PyNone); [done|].
  unfold bind at 1.
  destruct (check_game _ expected_game w1) as [[[]|e] w2]; [|done].
  py_unfold. destruct (py_call agent_class w2) as [[agent|e] w3].
  - by destruct (negb _ || negb _).
  - by destruct (is_Exception e).
Qed.

(** What [load_agent] does on a path that passed both checks, whatever the
    path resolves to. *)
Lemma load_agent_checked agent_path expected_game w :
  path_exists fs (resolve agent_path) = true →
  PyString.suffix (resolve agent_path) = ".py" →
  load_agent resolve fs agent_path expected_game w =
    match exec_module fs (mkModuleSpec "user_agent" (resolve agent_path))
            (registered (resolve agent_path) w) with
    | (Raise e, w1) =>
        if is_Exception e
        then (Raise (AgentLoadError ModuleLoadFailed
                       ("Failed to load agent module: " +:+ exc_str e)), w1)
        else (Raise e, w1)
    | (Ret module, w1) =>
        match find_agent_class module w1 with
        | (Raise e, w2) => (Raise e, w2)
        | (Ret agent_class, w2) =>
            if py_is agent_class PyNone
            then (Raise (AgentLoadError NoAgentClass
              "No agent class found. Create a class named 'Agent' with an 'on_turn' method."), w2)
            else
              match check_game (getattr agent_class "GAME" PyNone)
                      expected_game w2 with
              | (Raise e, w3) => (Raise e, w3)
              | (Ret _, w3) =>
                  match py_call agent_class w3 with
                  | (Ret agent, w4) =>
                      if negb (hasattr agent "on_turn")
                         || negb (callable (getattr agent "on_turn" PyNone))
                      then (Raise (AgentLoadError MissingOnTurn
                                     "Agent must have an 'on_turn' method"), w4)
                      else (Ret agent, w4)
                  | (Raise e, w4) =>
                      if is_Exception e
                      then (Raise (AgentLoadError InstantiationFailed
                              ("Failed to instantiate agent: " +:+ exc_str e)), w4)
                      else (Raise e, w4)
                  end
              end
        end
    end.
Proof.
  intros Hexists Hsuf. unfold load_agent. rewrite Hexists, Hsuf. simpl.
  unfold load_module. rewrite (spec_for_py _ _ Hsuf). py_unfold.
  change (set_sys_modules _ w) with (registered (resolve agent_path) w).
  destruct (exec_module fs _ _) as [[module|e] w1];
    [|by destruct (is_Exception e)].
  destruct (find_agent_class module w1) as [[agent_class|e] w2]; [|done].
  destruct (py_is agent_class PyNone); [done|].
  destruct (check_game _ expected_game w2) as [[[]|e] w3]; [|done].
  destruct (py_call agent_class w3) as [[agent|e] w4].
  - by destruct (negb _ || negb _).
  - by destruct (is_Exception e).
Qed.

End LoaderFacts.

(** ** Handles have a callable [on_turn] *)

(** Whatever [load_agent] returns passed the check of line 197. *)
Lemma load_agent_returns_usable resolve fs agent_path expected_game w agent w' :
  load_agent resolve fs agent_path expected_game w = (Ret agent, w') →
  hasattr agent "on_turn" = true
  ∧ callable (getattr agent "on_turn" PyNone) = true.
Proof.
  unfold load_agent. py_unfold. intros H.
  repeat case_match; simplify_eq.
  match goal with
  | Hc : negb _ || negb _ = false |- _ =>
      apply orb_false_iff in Hc; destruct Hc as [Hhas Hcall];
      apply negb_false_iff in Hhas, Hcall; done
  end.
Qed.

(** C1. A module that binds no name [Agent] and in which no class has an
    [on_turn] attribute makes [load_agent] raise [AgentLoadError] at the
    "No agent class found" site, a contract violation, and nothing is
    returned; and every object that [load_agent] does return has an
    [on_turn] attribute that is callable. *)
Theorem load_agent_requires_on_turn resolve fs agent_path expected_game w :
  (∀ code module w1,
     fs !! resolve agent_path = Some (RegularFile code) →
     PyString.suffix (resolve agent_path) = ".py" →
     code "user_agent" (registered (resolve agent_path) w) = (Ret module, w1) →
     module !! "Agent" = None →
     (∀ name obj, module !! name = Some obj →
        isinstance_type obj = true → hasattr obj "on_turn" = false) →
     ∃ msg,
       load_agent resolve fs agent_path expected_game w
         = (Raise (AgentLoadError NoAgentClass msg), w1)
       ∧ kind_of_site NoAgentClass = ContractViolation)
  ∧ (∀ agent w',
       load_agent resolve fs agent_path expected_game w = (Ret agent, w') →
       hasattr agent "on_turn" = true
       ∧ callable (getattr agent "on_turn" PyNone) = true).
Proof.
  split.
  - intros code module w1 Hfile Hsuf Hrun HnoAgent Hno.
    eexists. split; [|done].
    rewrite (load_agent_candidate _ _ _ _ _ code module w1 PyNone); try done.
    unfold find_agent_class. rewrite HnoAgent.
    apply scan_for_agent_class_none; [apply dir_bound | done].
  - apply load_agent_returns_usable.
Qed.

Lemma no_class_with_on_turn_spec (module : Namespace) :
  no_class_with_on_turn module = true →
  ∀ name obj, module !! name = Some obj →
    isinstance_type obj = true → hasattr obj "on_turn" = false.
Proof.
  unfold no_class_with_on_turn. rewrite forallb_forall.
  intros Hall name obj Hobj Hty.
  apply elem_of_map_to_list, list_elem_of_In, Hall in Hobj. simpl in Hobj.
  rewrite Hty in Hobj. by apply negb_true_iff in Hobj.
Qed.

Import Examples.

Lemma load_agent_requires_on_turn_witness :
  (∃ msg,
     load_agent id disk "/agents/helpers.py" None world0
       = (Raise (AgentLoadError NoAgentClass msg),
          registered "/agents/helpers.py" world0)
     ∧ kind_of_site NoAgentClass = ContractViolation)
  ∧ hasattr (PyObject 101 false
               [("GAME", PyStr "split-or-steal"); ("on_turn", method 102 "on_turn")]
               None) "on_turn" = true.
Proof.
  split.
  - refine (proj1 (load_agent_requires_on_turn id disk "/agents/helpers.py"
                     None world0) _ _ _ _ _ _ _ _).
    + vm_compute. reflexivity.
    + vm_compute. reflexivity.
    + reflexivity.
    + vm_compute. reflexivity.
    + apply no_class_with_on_turn_spec. vm_compute. reflexivity.
  - refine (proj1 (proj2 (load_agent_requires_on_turn id disk
                            "/agents/simple_agent.py" None world0) _ _ _)).
    vm_compute. reflexivity.
Defined.

(** ** The [GAME] check *)

(** C2. When the candidate declares a non-empty [GAME] string and a
    non-empty [expected_game] that differs from it is supplied, [load_agent]
    raises [AgentLoadError] at the mismatch site, and the state it leaves is
    the state the module's code left: the candidate, whatever calling it
    would do, has not been called. *)
Theorem load_agent_game_mismatch resolve fs agent_path expected w
    code module w1 agent_class tag :
  fs !! resolve agent_path = Some (RegularFile code) →
  PyString.suffix (resolve agent_path) = ".py" →
  code "user_agent" (registered (resolve agent_path) w) = (Ret module, w1) →
  find_agent_class module w1 = (Ret agent_class, w1) →
  lookup_attr agent_class "GAME" = Some (PyStr tag) →
  tag ≠ "" → expected ≠ "" → tag ≠ expected →
  ∃ msg,
    load_agent resolve fs agent_path (Some expected) w
      = (Raise (AgentLoadError GameMismatchSite msg), w1)
    ∧ kind_of_site GameMismatchSite = GameMismatch.
Proof.
  intros Hfile Hsuf Hrun Hfind Hgame Htag Hexp Hne.
  rewrite (load_agent_candidate _ _ _ _ _ code module w1 agent_class) by done.
  assert (py_is agent_class PyNone = false) as ->
    by (by destruct agent_class).
  unfold getattr. rewrite Hgame. unfold check_game. simpl.
  apply String.eqb_neq in Htag, Hexp, Hne. rewrite Htag, Hexp, Hne. simpl.
  by eexists.
Qed.

Lemma load_agent_game_mismatch_witness :
  ∃ msg,
    load_agent id disk "/agents/openai_agent.py" (Some "coin-flip") world0
      = (Raise (AgentLoadError GameMismatchSite msg),
         registered "/agents/openai_agent.py" world0)
    ∧ kind_of_site GameMismatchSite = GameMismatch.
Proof.
  refine (load_agent_game_mismatch id disk "/agents/openai_agent.py" "coin-flip"
            world0 _ _ _ OpenAIAgent "nil-recruitment" _ _ _ _ _ _ _ _).
  - vm_compute. reflexivity.
  - vm_compute. reflexivity.
  - reflexivity.
  - vm_compute. reflexivity.
  - reflexivity.
  - discriminate.
  - discriminate.
  - discriminate.
Defined.

(** C10. The [GAME] check is skipped when either side is false as a
    condition, the empty string included: if the candidate declares
    [GAME = ""], or [expected_game] is [""], then whatever the other side
    is, [load_agent] goes on to instantiate the candidate and returns the
    agent (given that instantiation gives an object with a callable
    [on_turn]). *)
Theorem load_agent_empty_game_skips_check resolve fs agent_path expected_game w
    code module w1 agent_class agent w2 :
  fs !! resolve agent_path = Some (RegularFile code) →
  PyString.suffix (resolve agent_path) = ".py" →
  code "user_agent" (registered (resolve agent_path) w) = (Ret module, w1) →
  find_agent_class module w1 = (Ret agent_class, w1) →
  py_call agent_class w1 = (Ret agent, w2) →
  hasattr agent "on_turn" = true →
  callable (getattr agent "on_turn" PyNone) = true →
  lookup_attr agent_class "GAME" = Some (PyStr "") ∨ expected_game = Some "" →
  load_agent resolve fs agent_path expected_game w = (Ret agent, w2).
Proof.
  intros Hfile Hsuf Hrun Hfind Hcall Hhas Hcallable Hempty.
  rewrite (load_agent_candidate _ _ _ _ _ code module w1 agent_class) by done.
  assert (py_is agent_class PyNone = false) as ->
    by (by destruct agent_class as [| | | |? ? ? []]).
  assert (check_game (getattr agent_class "GAME" PyNone) expected_game w1
          = (Ret tt, w1)) as ->.
  { unfold check_game. destruct Hempty as [Hgame| ->].
    - unfold getattr. rewrite Hgame. simpl. by rewrite andb_false_r.
    - done. }
  by rewrite Hcall, Hhas, Hcallable.
Qed.

Lemma load_agent_empty_game_skips_check_witness :
  load_agent id disk "/agents/untagged.py" (Some "coin-flip") world0
    = (Ret (PyObject 701 false
              [("GAME", PyStr ""); ("on_turn", method 702 "on_turn")] None),
       registered "/agents/untagged.py" world0)
  ∧ load_agent id disk "/agents/simple_agent.py" (Some "") world0
    = (Ret (PyObject 101 false
              [("GAME", PyStr "split-or-steal"); ("on_turn", method 102 "on_turn")]
              None),
       registered "/agents/simple_agent.py" world0).
Proof.
  split.
  - refine (load_agent_empty_game_skips_check id disk "/agents/untagged.py"
              (Some "coin-flip") world0 _ _ _ Untagged _ _ _ _ _ _ _ _ _ _).
    + vm_compute. reflexivity.
    + vm_compute. reflexivity.
    + reflexivity.
    + vm_compute. reflexivity.
    + reflexivity.
    + vm_compute. reflexivity.
    + reflexivity.
    + left. reflexivity.
  - refine (load_agent_empty_game_skips_check id disk "/agents/simple_agent.py"
              (Some "") world0 _ _ _ SimpleAgent _ _ _ _ _ _ _ _ _ _).
    + vm_compute. reflexivity.
    + vm_compute. reflexivity.
    + reflexivity.
    + vm_compute. reflexivity.
    + reflexivity.
    + vm_compute. reflexivity.
    + reflexivity.
    + right. reflexivity.
Defined.

(** ** Candidate resolution *)

(** The claim read literally: whenever the attribute [Agent] is not a class
    that can be instantiated, [load_agent] raises [AgentLoadError].  A file
    that binds [Agent] to a function returning an agent loads. *)
Lemma load_agent_accepts_Agent_function :
  ¬ (∀ fs agent_path expected_game w code module w1 agent_attr,
       fs !! agent_path = Some (RegularFile code) →
       PyString.suffix agent_path = ".py" →
       code "user_agent" (registered agent_path w) = (Ret module, w1) →
       module !! "Agent" = Some agent_attr →
       ¬ (isinstance_type agent_attr = true
          ∧ ∃ agent w2, py_call agent_attr w1 = (Ret agent, w2))
       ∨ (∃ agent w2, py_call agent_attr w1 = (Ret agent, w2)
            ∧ hasattr agent "on_turn"
              && callable (getattr agent "on_turn" PyNone) = false) →
       ∃ site msg w',
         load_agent id fs agent_path expected_game w
           = (Raise (AgentLoadError site msg), w')).
Proof.
  intros H.
  destruct (H disk' "/agents/factory.py" None world0 _ _ _ make_agent
              eq_refl eq_refl eq_refl eq_refl) as (site & msg & w' & Hload).
  - left. intros [Hclass _]. discriminate Hclass.
  - vm_compute in Hload. discriminate.
Qed.

(** Nor is what leaves [load_agent] always an [AgentLoadError]: a class
    [Agent] whose constructor calls [sys.exit] makes it raise [SystemExit],
    although the file has another class that would have loaded. *)
Example load_agent_lets_SystemExit_through :
  load_agent id disk' "/agents/exiting_agent.py" None world0
    = (Raise (ExitException "SystemExit" "2"),
       registered "/agents/exiting_agent.py" world0).
Proof. vm_compute. reflexivity. Qed.

(** C9, as the code has it.  A module attribute named [Agent] is the
    candidate, whatever else the module defines: the scan over the other
    names does not run.  If calling it raises an [Exception], or gives an
    object without a callable [on_turn], [load_agent] raises
    [AgentLoadError], also when the module has another class that would
    have loaded.  The attribute need not be a class: once the [GAME] check
    has passed, whatever calling it returns is the agent if it has a
    callable [on_turn]; and an exception of the call that is not an
    [Exception] leaves [load_agent] as it was raised. *)
Theorem load_agent_Agent_name_first resolve fs agent_path expected_game w
    code module w1 agent_attr :
  fs !! resolve agent_path = Some (RegularFile code) →
  PyString.suffix (resolve agent_path) = ".py" →
  code "user_agent" (registered (resolve agent_path) w) = (Ret module, w1) →
  module !! "Agent" = Some agent_attr →
  find_agent_class module w1 = (Ret agent_attr, w1)
  ∧ ((∃ e w2, py_call agent_attr w1 = (Raise e, w2) ∧ is_Exception e = true)
     ∨ (∃ agent w2, py_call agent_attr w1 = (Ret agent, w2)
          ∧ hasattr agent "on_turn"
            && callable (getattr agent "on_turn" PyNone) = false) →
     ∃ site msg w',
       load_agent resolve fs agent_path expected_game w
         = (Raise (AgentLoadError site msg), w'))
  ∧ (game_mismatch (getattr agent_attr "GAME" PyNone) expected_game = false →
     (∀ agent w2,
        py_call agent_attr w1 = (Ret agent, w2) →
        hasattr agent "on_turn" = true →
        callable (getattr agent "on_turn" PyNone) = true →
        load_agent resolve fs agent_path expected_game w = (Ret agent, w2))
     ∧ (∀ e w2,
          py_call agent_attr w1 = (Raise e, w2) →
          is_Exception e = false →
          load_agent resolve fs agent_path expected_game w = (Raise e, w2))).
Proof.
  intros Hfile Hsuf Hrun Hagent.
  assert (find_agent_class module w1 = (Ret agent_attr, w1)) as Hfind
    by (unfold find_agent_class; by rewrite Hagent).
  split; [done|].
  rewrite (load_agent_candidate _ _ _ _ _ code module w1 agent_attr) by done.
  split.
  - intros Hbad.
    destruct (py_is agent_attr PyNone); [by do 3 eexists|].
    destruct (check_game_cases (getattr agent_attr "GAME" PyNone) expected_game w1)
      as [-> | [msg ->]]; [|by do 3 eexists].
    destruct Hbad as [(e & w2 & -> & ->) | (agent & w2 & -> & Hbad)].
    + by do 3 eexists.
    + apply andb_false_iff in Hbad.
      assert (negb (hasattr agent "on_turn")
              || negb (callable (getattr agent "on_turn" PyNone)) = true) as ->.
      { apply orb_true_iff. destruct Hbad as [-> | ->]; auto. }
      by do 3 eexists.
  - intros Hgame. rewrite (check_game_pass _ _ _ Hgame). split.
    + intros agent w2 Hcall Hhas Hcallable.
      assert (py_is agent_attr PyNone = false) as ->
        by (by destruct agent_attr as [| | | |? ? ? []]).
      by rewrite Hcall, Hhas, Hcallable.
    + intros e w2 Hcall He.
      assert (py_is agent_attr PyNone = false) as ->.
      { destruct agent_attr as [| | | |? ? ? []]; try done;
          simpl in Hcall; injection Hcall as <- _; done. }
      by rewrite Hcall, He.
Qed.

Lemma load_agent_Agent_name_first_witness :
  (find_agent_class (<["Agent" := NeedsName]> (<["GoodBot" := GoodBot]>
       (module_dunders "user_agent" "/agents/shadowed.py")))
     (registered "/agents/shadowed.py" world0)
     = (Ret NeedsName, registered "/agents/shadowed.py" world0)
   ∧ ∃ site msg w',
       load_agent id disk "/agents/shadowed.py" None world0
         = (Raise (AgentLoadError site msg), w'))
  ∧ load_agent id disk' "/agents/factory.py" (Some "coin-flip") world0
    = (Ret (PyObject 611 false [("on_turn", method 612 "on_turn")] None),
       registered "/agents/factory.py" world0)
  ∧ load_agent id disk' "/agents/exiting_agent.py" None world0
    = (Raise (ExitException "SystemExit" "2"),
       registered "/agents/exiting_agent.py" world0).
Proof.
  split; [|split].
  - destruct (load_agent_Agent_name_first id disk "/agents/shadowed.py" None
                world0
                (λ name, ret (<["Agent" := NeedsName]> (<["GoodBot" := GoodBot]>
                                (module_dunders name "/agents/shadowed.py"))))
                (<["Agent" := NeedsName]> (<["GoodBot" := GoodBot]>
                   (module_dunders "user_agent" "/agents/shadowed.py")))
                (registered "/agents/shadowed.py" world0) NeedsName)
      as (Hfind & Hraise & _).
    + vm_compute. reflexivity.
    + vm_compute. reflexivity.
    + reflexivity.
    + vm_compute. reflexivity.
    + split; [exact Hfind|]. apply Hraise. left.
      eexists _, _. split; reflexivity.
  - refine (proj1 (proj2 (proj2 (load_agent_Agent_name_first id disk'
              "/agents/factory.py" (Some "coin-flip") world0 _ _ _ make_agent
              _ _ _ _)) _) _ _ _ _ _).
    + vm_compute. reflexivity.
    + vm_compute. reflexivity.
    + reflexivity.
    + vm_compute. reflexivity.
    + reflexivity.
    + reflexivity.
    + vm_compute. reflexivity.
    + reflexivity.
  - refine (proj2 (proj2 (proj2 (load_agent_Agent_name_first id disk'
              "/agents/exiting_agent.py" None world0 _ _ _ ExitingAgent
              _ _ _ _)) _) _ _ _ _).
    + vm_compute. reflexivity.
    + vm_compute. reflexivity.
    + reflexivity.
    + vm_compute. reflexivity.
    + reflexivity.
    + reflexivity.
    + reflexivity.
Defined.

(** Without the name [Agent] in the way the other class of that file
    loads. *)
Example GoodBot_alone_loads :
  ∃ agent w',
    load_agent id (<["/agents/shadowed.py" :=
                       RegularFile (λ name, ret (<["GoodBot" := GoodBot]>
                         (module_dunders name "/agents/shadowed.py")))]> disk)
      "/agents/shadowed.py" None world0 = (Ret agent, w').
Proof. eexists _, _. vm_compute. reflexivity. Qed.

(** The scan of [load_agent] never settles on [AgentBase]. *)
Lemma scan_for_agent_class_skips_AgentBase (module : Namespace) names w obj w' :
  scan_for_agent_class module names w = (Ret obj, w') →
  obj = PyNone ∨ py_is obj AgentBase = false.
Proof.
  induction names as [|name rest IH]; cbn [scan_for_agent_class]; py_unfold.
  - intros [= <- _]. by left.
  - destruct (module !! name) as [o|]; [|done].
    destruct (isinstance_type o && negb (py_is o AgentBase)) eqn:Hsel; [|done].
    destruct (hasattr o "on_turn"); [|done].
    intros [= <- _]. right.
    apply andb_true_iff in Hsel as [_ Hsel]. by apply negb_true_iff in Hsel.
Qed.

(** C3. The search takes the attribute [Agent] when there is one and scans
    [dir(module)] otherwise; the scan leaves out [AgentBase] but not
    [AgentProtocol].  In a module that imports [AgentProtocol] and defines
    the class [ProtoBot], the scan meets the name [AgentProtocol] first and
    makes the protocol class the candidate; instantiating it fails, so the
    file does not load, while the same class without the import loads. *)
Theorem load_agent_scan_selects_AgentProtocol :
  find_agent_class
      (<["AgentProtocol" := AgentProtocol]> (<["ProtoBot" := ProtoBot]>
         (module_dunders "user_agent" "/agents/proto_bot.py"))) world0
    = (Ret AgentProtocol, world0)
  ∧ load_agent id disk "/agents/proto_bot.py" None world0
    = (Raise (AgentLoadError InstantiationFailed
                "Failed to instantiate agent: Protocols cannot be instantiated"),
       registered "/agents/proto_bot.py" world0)
  ∧ load_agent id disk "/agents/plain_bot.py" None world0
    = (Ret (PyObject 301 false
              (("on_turn", method 302 "on_turn") :: lifecycle_methods 10) None),
       registered "/agents/plain_bot.py" world0).
Proof. repeat split; vm_compute; reflexivity. Qed.

(** ** The compatibility check *)

(** The loop of [get_agent_game] reads the module and nothing else. *)
Lemma scan_for_game_pure (module : Namespace) names w :
  Forall (λ name, is_Some (module !! name)) names →
  ∃ r, scan_for_game module names w = (Ret r, w).
Proof.
  induction 1 as [|name rest [obj Hobj] _ IH];
    cbn [scan_for_game]; [by eexists|].
  py_unfold. rewrite Hobj. py_unfold.
  destruct (isinstance_type obj && hasattr obj "on_turn");
    first [exact IH | by eexists].
Qed.


(** [get_agent_game] on a Python file, in terms of what its code does. *)
Lemma get_agent_game_file resolve fs agent_path code w :
  fs !! resolve agent_path = Some (RegularFile code) →
  PyString.suffix (resolve agent_path) = ".py" →
  get_agent_game resolve fs agent_path w =
    match code "user_agent_check" w with
    | (Ret module, w1) =>
        match module !! "Agent" with
        | Some agent => (Ret (getattr agent "GAME" PyNone), w1)
        | None =>
            match scan_for_game module (dir_ module) w1 with
            | (Ret (Some game), w2) => (Ret game, w2)
            | (Ret None, w2) => (Ret PyNone, w2)
            | (Raise e, w2) =>
                if is_Exception e then (Ret PyNone, w2) else (Raise e, w2)
            end
        end
    | (Raise e, w1) =>
        if is_Exception e then (Ret PyNone, w1) else (Raise e, w1)
    end.
Proof.
  intros Hfile Hsuf. unfold get_agent_game.
  rewrite (path_exists_lookup _ _ _ Hfile), Hsuf. simpl.
  rewrite (spec_for_py _ _ Hsuf). unfold exec_module. simpl. rewrite Hfile.
  py_unfold. destruct (code "user_agent_check" w) as [[module|e] w1].
  - destruct (module !! "Agent") as [agent|]; [done|].
    destruct (scan_for_game module (dir_ module) w1) as [[[game|]|e] w2];
      try done.
    by destruct (is_Exception e).
  - by destruct (is_Exception e).
Qed.

(** With a class named [Agent] the check reads the tag of the class that
    [load_agent] instantiates. *)
Lemma get_agent_game_of_Agent resolve fs agent_path code w module w1 agent :
  fs !! resolve agent_path = Some (RegularFile code) →
  PyString.suffix (resolve agent_path) = ".py" →
  code "user_agent_check" w = (Ret module, w1) →
  module !! "Agent" = Some agent →
  get_agent_game resolve fs agent_path w = (Ret (getattr agent "GAME" PyNone), w1).
Proof.
  intros Hfile Hsuf Hrun Hagent.
  by rewrite (get_agent_game_file _ _ _ code), Hrun, Hagent.
Qed.

(** C4. [get_agent_game] and [load_agent] resolve the candidate differently:
    the loop of [get_agent_game] has no [obj is not AgentBase] test.  For a
    file that imports [AgentBase] and defines [class MyBot(AgentBase)] with
    [GAME = "coin-flip"], [load_agent] instantiates [MyBot], whose tag is
    ["coin-flip"], and [get_agent_game] answers [None], the tag of
    [AgentBase]. *)
Theorem get_agent_game_reads_AgentBase :
  find_agent_class
      (<["AgentBase" := AgentBase]> (<["MyBot" := MyBot]>
         (module_dunders "user_agent" "/agents/my_bot.py"))) world0
    = (Ret MyBot, world0)
  ∧ getattr MyBot "GAME" PyNone = PyStr "coin-flip"
  ∧ (∃ agent w',
       load_agent id disk "/agents/my_bot.py" None world0 = (Ret agent, w')
       ∧ getattr agent "GAME" PyNone = PyStr "coin-flip")
  ∧ get_agent_game id disk "/agents/my_bot.py" world0 = (Ret PyNone, world0).
Proof.
  split; [vm_compute; reflexivity|]. split; [reflexivity|].
  split; [|vm_compute; reflexivity].
  eexists _, _. split; vm_compute; reflexivity.
Qed.




(** ** The module registry *)

(** The candidate is [None] or an object bound in the module. *)
Lemma scan_for_agent_class_bound (module : Namespace) names w obj w' :
  scan_for_agent_class module names w = (Ret obj, w') →
  obj = PyNone ∨ ∃ k, module !! k = Some obj.
Proof.
  induction names as [|name rest IH]; cbn [scan_for_agent_class]; py_unfold.
  - intros [= <- _]. by left.
  - destruct (module !! name) as [o|] eqn:Ho; [|done].
    destruct (isinstance_type o && negb (py_is o AgentBase)); [|done].
    destruct (hasattr o "on_turn"); [|done].
    intros [= <- _]. right. by exists name.
Qed.

Lemma find_agent_class_bound (module : Namespace) w obj w' :
  find_agent_class module w = (Ret obj, w') →
  obj = PyNone ∨ ∃ k, module !! k = Some obj.
Proof.
  unfold find_agent_class. destruct (module !! "Agent") as [a|] eqn:Ha.
  - intros [= <- _]. right. by exists "Agent".
  - apply scan_for_agent_class_bound.
Qed.

Lemma py_call_keeps_key key obj w r w' :
  call_keeps_key key obj → py_call obj w = (r, w') →
  sys_modules w' !! key = sys_modules w !! key.
Proof.
  destruct obj as [| | | |i t attrs [f|]]; simpl;
    try (by intros _ [= _ <-]).
  intros Hkeep Hcall. by apply (Hkeep _ _ _ Hcall).
Qed.

(** A load of a file that starts with an empty registry ends with the
    module registered. *)
Lemma load_agent_adds_registry_entry :
  ¬ (∀ fs agent_path expected_game w r w',
       load_agent id fs agent_path expected_game w = (r, w') →
       sys_modules w' = sys_modules w).
Proof.
  intros H.
  specialize (H disk "/agents/simple_agent.py" None world0 _ _ eq_refl).
  apply (f_equal (λ m, m !! "user_agent")) in H.
  vm_compute in H. discriminate.
Qed.

(** The file's code sees the registration: run by [load_agent] the probe
    finds ["user_agent"] in [sys.modules], run by [get_agent_game], which
    registers nothing, it does not. *)
Example load_agent_registers_before_running :
  (load_agent id disk' "/agents/probe.py" None world0).2
    = log_effect "print: True" (registered "/agents/probe.py" world0)
  ∧ (get_agent_game id disk' "/agents/probe.py" world0).2
    = log_effect "print: False" world0.
Proof. split; vm_compute; reflexivity. Qed.

(** A call that stops at one of the two path checks changes nothing. *)
Lemma load_agent_refused_state resolve fs agent_path expected_game w r w' :
  load_agent resolve fs agent_path expected_game w = (r, w') →
  path_exists fs (resolve agent_path)
    && String.eqb (PyString.suffix (resolve agent_path)) ".py" = false →
  w' = w.
Proof.
  unfold load_agent. intros Hload Hchecks. revert Hload.
  destruct (path_exists fs (resolve agent_path)); simpl in *;
    [|by intros [= _ <-]].
  rewrite Hchecks. simpl. by intros [= _ <-].
Qed.

(** The state a call of [load_agent] ends in, on a file that passed the
    checks: the file's code ran in the state with the module registered,
    and then at most the candidate was called. *)
Lemma load_agent_state resolve fs agent_path expected_game w r w' code :
  load_agent resolve fs agent_path expected_game w = (r, w') →
  fs !! resolve agent_path = Some (RegularFile code) →
  PyString.suffix (resolve agent_path) = ".py" →
  ∃ r1 w1,
    code "user_agent" (registered (resolve agent_path) w) = (r1, w1)
    ∧ (w' = w1
       ∨ ∃ module agent_class r2,
           r1 = Ret module
           ∧ find_agent_class module w1 = (Ret agent_class, w1)
           ∧ py_call agent_class w1 = (r2, w')).
Proof.
  intros Hload Hfile Hsuf. revert Hload.
  rewrite load_agent_checked by (done || by eapply path_exists_lookup).
  unfold exec_module. simpl. rewrite Hfile.
  destruct (code "user_agent" _) as [[module|e] w1] eqn:Hrun.
  - intros Hload. exists (Ret module), w1. split; [done|]. revert Hload.
    destruct (find_agent_class_pure module w1) as [agent_class Hfind].
    rewrite Hfind.
    destruct (py_is agent_class PyNone); [intros [= _ <-]; by left|].
    destruct (check_game_cases (getattr agent_class "GAME" PyNone)
                expected_game w1) as [-> | [msg ->]];
      [|intros [= _ <-]; by left].
    destruct (py_call agent_class w1) as [[agent|e] w2] eqn:Hcall.
    + destruct (negb _ || negb _); intros [= _ <-]; right;
        by exists module, agent_class, (Ret agent).
    + destruct (is_Exception e); intros [= _ <-]; right;
        by exists module, agent_class, (Raise e).
  - intros Hload. exists (Raise e), w1. split; [done|]. left.
    revert Hload. by destruct (is_Exception e); intros [= _ <-].
Qed.

(** A directory whose name ends in [".py"]: the module is registered, then
    reading the file fails. *)
Lemma load_agent_directory_state resolve fs agent_path expected_game w r w' :
  load_agent resolve fs agent_path expected_game w = (r, w') →
  fs !! resolve agent_path = Some Directory →
  PyString.suffix (resolve agent_path) = ".py" →
  w' = registered (resolve agent_path) w.
Proof.
  intros Hload Hdir Hsuf. revert Hload.
  rewrite load_agent_checked by (done || by eapply path_exists_lookup).
  unfold exec_module. simpl. rewrite Hdir. py_unfold. simpl.
  by intros [= _ <-].
Qed.

(** An entry of [sys.modules] that the user code leaves alone is, after the
    call, what the registration made it. *)
Lemma load_agent_final_key resolve fs key agent_path expected_game w r w' :
  load_agent resolve fs agent_path expected_game w = (r, w') →
  path_exists fs (resolve agent_path) = true →
  PyString.suffix (resolve agent_path) = ".py" →
  (∀ code, fs !! resolve agent_path = Some (RegularFile code) →
           code_keeps_key key code) →
  sys_modules w' !! key
    = (<["user_agent" := mkModuleRef "user_agent" (resolve agent_path)]>
         (sys_modules w)) !! key.
Proof.
  intros Hload Hexists Hsuf Hkeep.
  apply bool_decide_eq_true in Hexists as [[|code] Hfile].
  { by rewrite (load_agent_directory_state _ _ _ _ _ _ _ Hload Hfile Hsuf). }
  destruct (load_agent_state _ _ _ _ _ _ _ _ Hload Hfile Hsuf)
    as (r1 & w1 & Hrun & Hw').
  destruct (Hkeep code Hfile _ _ _ _ Hrun) as [Hw1 Hbound].
  destruct Hw' as [-> | (module & agent_class & r2 & -> & Hfind & Hcall)];
    [exact Hw1|].
  transitivity (sys_modules w1 !! key); [|exact Hw1].
  apply find_agent_class_bound in Hfind as [-> | [k Hk]].
  - simpl in Hcall. by injection Hcall as _ <-.
  - eapply py_call_keeps_key; [|done]. by eapply Hbound.
Qed.

Lemma bound_objects_keep_key key (module : Namespace) :
  Forall (λ item, call_keeps_key key item.2) (map_to_list module) →
  ∀ k obj, module !! k = Some obj → call_keeps_key key obj.
Proof.
  rewrite Forall_forall. intros Hall k obj Hk.
  by apply elem_of_map_to_list, Hall in Hk.
Qed.

(** The example file that imports [json] changes [sys.modules], but not
    the entry ["user_agent"]. *)
Lemma importing_keeps_user_agent code :
  disk' !! "/agents/importing.py" = Some (RegularFile code) →
  code_keeps_key "user_agent" code.
Proof.
  assert (disk' !! "/agents/importing.py" = Some importing_py) as ->
    by (vm_compute; reflexivity).
  intros [= <-] name w r w' [= <- <-]. split.
  - unfold set_sys_modules. simpl. by rewrite lookup_insert_ne.
  - intros module [= <-]. apply bound_objects_keep_key.
    vm_compute map_to_list.
    repeat constructor; simpl; intros; by simplify_eq.
Qed.

(** Two loads, one after the other: the binding the first left is replaced
    by the second. *)
Lemma load_agent_twice_replaces resolve fs path1 path2 game1 game2
    w r1 w1 r2 w2 :
  load_agent resolve fs path1 game1 w = (r1, w1) →
  load_agent resolve fs path2 game2 w1 = (r2, w2) →
  (∀ path code, fs !! path = Some (RegularFile code) →
                code_keeps_key "user_agent" code) →
  path_exists fs (resolve path1) = true →
  PyString.suffix (resolve path1) = ".py" →
  path_exists fs (resolve path2) = true →
  PyString.suffix (resolve path2) = ".py" →
  sys_modules w1 !! "user_agent"
    = Some (mkModuleRef "user_agent" (resolve path1))
  ∧ sys_modules w2 !! "user_agent"
    = Some (mkModuleRef "user_agent" (resolve path2)).
Proof.
  intros H1 H2 Hkeep He1 Hs1 He2 Hs2.
  apply (load_agent_final_key _ _ "user_agent") in H1; [|by eauto..].
  apply (load_agent_final_key _ _ "user_agent") in H2; [|by eauto..].
  rewrite H2, H1. by rewrite !lookup_insert_eq.
Qed.

(** C7, as the code has it.  A call of [load_agent] that stops at one of the
    two path checks leaves the interpreter state alone.  Every other call
    first binds ["user_agent"] in [sys.modules] to the new module,
    replacing what was bound to that name, and only then runs the file's
    code: the code starts in the state with that binding, and the state the
    call ends in is the one the code left or, when the candidate was
    called, the one that call left.  The loader writes no other entry and
    undoes nothing, whether the load succeeds or fails: every entry that
    executing the file and calling what it defines leave alone (the file
    may import other modules) is afterwards what the registration made it.
    Of two loads made one after the other, the second replaces the binding
    the first left. *)
Theorem load_agent_registers_user_agent resolve fs :
  (∀ agent_path expected_game w r w',
     load_agent resolve fs agent_path expected_game w = (r, w') →
     path_exists fs (resolve agent_path)
       && String.eqb (PyString.suffix (resolve agent_path)) ".py" = false →
     w' = w)
  ∧ (∀ path w,
       sys_modules (registered path w)
         = <["user_agent" := mkModuleRef "user_agent" path]> (sys_modules w)
       ∧ effects (registered path w) = effects w)
  ∧ (∀ agent_path expected_game w r w' code,
       load_agent resolve fs agent_path expected_game w = (r, w') →
       fs !! resolve agent_path = Some (RegularFile code) →
       PyString.suffix (resolve agent_path) = ".py" →
       ∃ r1 w1,
         code "user_agent" (registered (resolve agent_path) w) = (r1, w1)
         ∧ (w' = w1
            ∨ ∃ module agent_class r2,
                r1 = Ret module
                ∧ find_agent_class module w1 = (Ret agent_class, w1)
                ∧ py_call agent_class w1 = (r2, w')))
  ∧ (∀ agent_path expected_game w r w',
       load_agent resolve fs agent_path expected_game w = (r, w') →
       fs !! resolve agent_path = Some Directory →
       PyString.suffix (resolve agent_path) = ".py" →
       w' = registered (resolve agent_path) w)
  ∧ (∀ key agent_path expected_game w r w',
       load_agent resolve fs agent_path expected_game w = (r, w') →
       path_exists fs (resolve agent_path) = true →
       PyString.suffix (resolve agent_path) = ".py" →
       (∀ code, fs !! resolve agent_path = Some (RegularFile code) →
                code_keeps_key key code) →
       sys_modules w' !! key
         = (<["user_agent" := mkModuleRef "user_agent" (resolve agent_path)]>
              (sys_modules w)) !! key)
  ∧ (∀ path1 path2 game1 game2 w r1 w1 r2 w2,
       load_agent resolve fs path1 game1 w = (r1, w1) →
       load_agent resolve fs path2 game2 w1 = (r2, w2) →
       (∀ path code, fs !! path = Some (RegularFile code) →
                     code_keeps_key "user_agent" code) →
       path_exists fs (resolve path1) = true →
       PyString.suffix (resolve path1) = ".py" →
       path_exists fs (resolve path2) = true →
       PyString.suffix (resolve path2) = ".py" →
       sys_modules w1 !! "user_agent"
         = Some (mkModuleRef "user_agent" (resolve path1))
       ∧ sys_modules w2 !! "user_agent"
         = Some (mkModuleRef "user_agent" (resolve path2))).
Proof.
  split; [|split; [|split; [|split; [|split]]]].
  - intros agent_path expected_game w r w'. apply load_agent_refused_state.
  - done.
  - intros agent_path expected_game w r w' code. apply load_agent_state.
  - intros agent_path expected_game w r w'. apply load_agent_directory_state.
  - intros key agent_path expected_game w r w'. apply load_agent_final_key.
  - intros path1 path2 game1 game2 w r1 w1 r2 w2.
    apply load_agent_twice_replaces.
Qed.

Lemma load_agent_registers_user_agent_witness :
  (∃ msg w',
     load_agent id disk' "/agents/importing.py" (Some "coin-flip") world0
       = (Raise (AgentLoadError GameMismatchSite msg), w')
     ∧ sys_modules w' !! "user_agent"
       = Some (mkModuleRef "user_agent" "/agents/importing.py")
     ∧ is_Some (sys_modules w' !! "json"))
  ∧ ∃ r1 w1,
      (λ name : string, ret (<["Agent" := SimpleAgent]>
                  (module_dunders name "/agents/simple_agent.py")))
        "user_agent" (registered "/agents/simple_agent.py" world0) = (r1, w1)
      ∧ (registered "/agents/simple_agent.py" world0 = w1
         ∨ ∃ module agent_class r2,
             r1 = Ret module
             ∧ find_agent_class module w1 = (Ret agent_class, w1)
             ∧ py_call agent_class w1
               = (r2, registered "/agents/simple_agent.py" world0)).
Proof.
  split.
  - eexists _, _. split; [vm_compute; reflexivity|]. split.
    + refine (eq_trans
                (proj1 (proj2 (proj2 (proj2 (proj2
                   (load_agent_registers_user_agent id disk')))))
                   "user_agent" "/agents/importing.py" (Some "coin-flip")
                   world0 _ _ eq_refl _ _ importing_keeps_user_agent) _).
      * vm_compute. reflexivity.
      * vm_compute. reflexivity.
      * reflexivity.
    + vm_compute. by eexists.
  - refine (proj1 (proj2 (proj2 (load_agent_registers_user_agent id disk)))
              "/agents/simple_agent.py" None world0
              (Ret (PyObject 101 false
                      [("GAME", PyStr "split-or-steal");
                       ("on_turn", method 102 "on_turn")] None))
              (registered "/agents/simple_agent.py" world0)
              (λ name, ret (<["Agent" := SimpleAgent]>
                              (module_dunders name "/agents/simple_agent.py")))
              _ _ _).
    + vm_compute. reflexivity.
    + vm_compute. reflexivity.
    + vm_compute. reflexivity.
Defined.

(** ** The path checks *)

(** Past the two path checks [load_agent] raises at none of their sites,
    whatever the user code raises. *)
Lemma load_agent_sites_after_checks resolve fs agent_path expected_game w
    site msg w' :
  path_exists fs (resolve agent_path) = true →
  PyString.suffix (resolve agent_path) = ".py" →
  load_agent resolve fs agent_path expected_game w
    = (Raise (AgentLoadError site msg), w') →
  site ≠ FileNotFound ∧ site ≠ NotPythonFile.
Proof.
  intros Hexists Hsuf. unfold load_agent. rewrite Hexists, Hsuf. simpl.
  unfold load_module. rewrite (spec_for_py _ _ Hsuf). py_unfold.
  destruct (exec_module fs _ _) as [[module|e] w1].
  - destruct (find_agent_class_pure module w1) as [agent_class ->].
    destruct (py_is agent_class PyNone); [by intros [= <- _ _]|].
    destruct (check_game_cases (getattr agent_class "GAME" PyNone)
                expected_game w1) as [-> | [m ->]]; [|by intros [= <- _ _]].
    destruct (py_call agent_class w1) as [[agent|e] w2].
    + destruct (negb _ || negb _); [by intros [= <- _ _] | done].
    + destruct e; simpl; intros [= <- _ _] || intros [=]; done.
  - destruct e; simpl; intros [= <- _ _] || intros [=]; done.
Qed.

(** A file named [".py"] exists and its path ends in [".py"], yet
    [pathlib] gives it no suffix and [load_agent] rejects it. *)
Lemma load_agent_rejects_dot_py :
  ¬ (∀ fs agent_path expected_game w,
       (∃ msg w', load_agent id fs agent_path expected_game w
                    = (Raise (AgentLoadError NotPythonFile msg), w'))
       ↔ path_exists fs agent_path = true
         ∧ PyString.endswith agent_path ".py" = false).
Proof.
  intros H. destruct (H disk "/agents/.py" None world0) as [Hraise _].
  destruct Hraise as [_ Hends]; [|vm_compute in Hends; discriminate].
  eexists _, _. vm_compute. reflexivity.
Qed.

(** C8, as the code has it.  [load_agent] raises at the "not found" site
    exactly when the resolved path does not exist, and at the "must be a
    Python file" site exactly when it exists and the suffix [pathlib] gives
    it is not [".py"] (every path with that suffix ends in [".py"]; a file
    named [".py"] has no suffix).  Both failures leave the interpreter state
    as it was, and the second does not depend on what the file contains:
    its code is not run. *)
Theorem load_agent_path_checks resolve fs agent_path expected_game w :
  ((∃ msg w', load_agent resolve fs agent_path expected_game w
                = (Raise (AgentLoadError FileNotFound msg), w'))
   ↔ path_exists fs (resolve agent_path) = false)
  ∧ ((∃ msg w', load_agent resolve fs agent_path expected_game w
                  = (Raise (AgentLoadError NotPythonFile msg), w'))
     ↔ path_exists fs (resolve agent_path) = true
       ∧ PyString.suffix (resolve agent_path) ≠ ".py")
  ∧ (∀ site msg w',
       load_agent resolve fs agent_path expected_game w
         = (Raise (AgentLoadError site msg), w') →
       kind_of_site site = NotFound ∨ kind_of_site site = InvalidFormat →
       w' = w)
  ∧ (PyString.suffix (resolve agent_path) ≠ ".py" →
     ∀ code,
       load_agent resolve (<[resolve agent_path := RegularFile code]> fs)
           agent_path expected_game w
         = (Raise (AgentLoadError NotPythonFile
                     ("Agent file must be a Python file: " +:+ resolve agent_path)),
            w))
  ∧ (PyString.suffix (resolve agent_path) = ".py" →
     PyString.endswith (resolve agent_path) ".py" = true).
Proof.
  assert (∀ site msg w',
    load_agent resolve fs agent_path expected_game w
      = (Raise (AgentLoadError site msg), w') →
    match site with
    | FileNotFound => path_exists fs (resolve agent_path) = false ∧ w' = w
    | NotPythonFile =>
        path_exists fs (resolve agent_path) = true
        ∧ PyString.suffix (resolve agent_path) ≠ ".py" ∧ w' = w
    | _ => True
    end) as Hsites.
  { intros site msg w' Hload.
    destruct (path_exists fs (resolve agent_path)) eqn:Hexists.
    - destruct (String.eqb_spec (PyString.suffix (resolve agent_path)) ".py")
        as [Hsuf|Hsuf].
      + destruct (load_agent_sites_after_checks _ _ _ _ _ _ _ _
                    Hexists Hsuf Hload).
        by destruct site.
      + revert Hload. unfold load_agent. rewrite Hexists.
        apply String.eqb_neq in Hsuf as Hsuf'. rewrite Hsuf'. simpl.
        by intros [= <- _ <-].
    - revert Hload. unfold load_agent. rewrite Hexists. simpl.
      by intros [= <- _ <-]. }
  split; [|split; [|split; [|split]]].
  - split.
    + intros (msg & w' & Hload). by destruct (Hsites _ _ _ Hload).
    + intros Hexists. unfold load_agent. rewrite Hexists. by eexists _, _.
  - split.
    + intros (msg & w' & Hload). by destruct (Hsites _ _ _ Hload) as (? & ? & ?).
    + intros [Hexists Hsuf]. unfold load_agent. rewrite Hexists.
      apply String.eqb_neq in Hsuf. rewrite Hsuf. by eexists _, _.
  - intros site msg w' Hload Hkind. specialize (Hsites _ _ _ Hload).
    destruct site; simpl in Hkind; try (by destruct Hkind).
    + by destruct Hsites.
    + by destruct Hsites as (? & ? & ?).
  - intros Hsuf code. unfold load_agent.
    rewrite (path_exists_lookup _ _ (RegularFile code)) by apply lookup_insert_eq.
    apply String.eqb_neq in Hsuf. by rewrite Hsuf.
  - apply suffix_py_endswith.
Qed.

Lemma load_agent_path_checks_witness :
  load_agent id (<["/agents/notes.txt" := exits_py]> disk)
      "/agents/notes.txt" None world0
    = (Raise (AgentLoadError NotPythonFile
                "Agent file must be a Python file: /agents/notes.txt"),
       world0)
  ∧ PyString.endswith "/agents/simple_agent.py" ".py" = true
  ∧ ∃ msg w', load_agent id disk "/agents/missing.py" None world0
                = (Raise (AgentLoadError FileNotFound msg), w').
Proof.
  split; [|split].
  - refine (proj1 (proj2 (proj2 (proj2 (load_agent_path_checks id disk
              "/agents/notes.txt" None world0)))) _ _).
    vm_compute. discriminate.
  - refine (proj2 (proj2 (proj2 (proj2 (load_agent_path_checks id disk
              "/agents/simple_agent.py" None world0)))) _).
    vm_compute. reflexivity.
  - refine (proj2 (proj1 (load_agent_path_checks id disk
              "/agents/missing.py" None world0)) _).
    vm_compute. reflexivity.
Defined.

(** ** The multi-game agent *)

Import MultiGame.

Example on_turn_liars_dice :
  on_turn always_challenge __init__ {[ "phase" := VStr "bid"; "your_dice" := VList [VInt 3] ]}
  = (Ret (VDict [("action_type", VStr "challenge")]),
     mkAgent (VInt 0) (VStr "liars-dice") (VDict [])).
Proof. reflexivity. Qed.

Example on_turn_negotiate :
  on_turn always_challenge __init__
    {[ "phase" := VStr "negotiate"; "messages" := VList [VDict []] ]}
  = (Ret (VDict [("type", VStr "message");
                 ("text", VStr "I'm committed to splitting. Let's both win!")]),
     mkAgent (VInt 0) (VStr "split-or-steal") (VDict [])).
Proof. reflexivity. Qed.

(** The split-or-steal handler answers unless [messages] is a value without
    a length. *)
Lemma _handle_split_or_steal_answers game_state phase :
  game_state !! "messages" = None →
  ∃ action, _handle_split_or_steal game_state phase = Ret action.
Proof.
  intros Hmsg. unfold _handle_split_or_steal, dict_get. rewrite Hmsg. simpl.
  destruct (eq_str phase "negotiate"); [by eexists|].
  destruct (eq_str phase "commit"); by eexists.
Qed.

(** A payload with neither [your_dice] nor [messages] is answered, not
    refused: the fresh agent commits to "split". *)
Lemma on_turn_guesses_split_or_steal :
  ¬ (∀ handler self game_state,
       current_game_type self = VNone →
       game_state !! "your_dice" = None →
       game_state !! "messages" = None →
       ∃ e, (on_turn handler self game_state).1 = Raise e).
Proof.
  intros H.
  destruct (H always_challenge __init__ bare_commit) as [e He];
    [reflexivity | reflexivity | reflexivity |].
  vm_compute in He. discriminate.
Qed.

(** C6, as the code has it.  With no game cached, a payload without
    [your_dice] is taken for Split or Steal: the guess is stored in
    [current_game_type] and the payload goes to the split-or-steal handler,
    which answers with an action when the payload has no [messages] either.
    [on_round_start] guesses the same way when [round_info] has no
    [game_id]. *)
Theorem on_turn_defaults_to_split_or_steal handler self game_state round_info :
  current_game_type self = VNone →
  game_state !! "your_dice" = None →
  round_info !! "game_id" = None →
  on_turn handler self game_state
    = (_handle_split_or_steal game_state (dict_get game_state "phase" VNone),
       {| round_number := round_number self;
          current_game_type := VStr "split-or-steal";
          all_game_rules := all_game_rules self |})
  ∧ (game_state !! "messages" = None →
     ∃ action, (on_turn handler self game_state).1 = Ret action)
  ∧ current_game_type (on_round_start self round_info).1 = VStr "split-or-steal".
Proof.
  intros Hnone Hdice Hgame.
  assert (on_turn handler self game_state
    = (_handle_split_or_steal game_state (dict_get game_state "phase" VNone),
       {| round_number := round_number self;
          current_game_type := VStr "split-or-steal";
          all_game_rules := all_game_rules self |})) as Hturn.
  { unfold on_turn, dict_contains. by rewrite Hnone, Hdice. }
  split; [done|]. split.
  - intros Hmsg. rewrite Hturn. simpl.
    by apply _handle_split_or_steal_answers.
  - unfold on_round_start, dict_get. simpl. by rewrite Hgame.
Qed.

Lemma on_turn_defaults_to_split_or_steal_witness :
  on_turn always_challenge __init__ bare_commit
    = (Ret (VDict [("type", VStr "commit"); ("choice", VStr "split")]),
       mkAgent (VInt 0) (VStr "split-or-steal") (VDict []))
  ∧ current_game_type
      (on_round_start __init__ {[ "round_number" := VInt 2 ]}).1
    = VStr "split-or-steal".
Proof.
  destruct (on_turn_defaults_to_split_or_steal always_challenge __init__
              bare_commit {[ "round_number" := VInt 2 ]})
    as (Hturn & _ & Hround); [reflexivity | reflexivity | reflexivity |].
  split; [exact Hturn | exact Hround].
Defined.


(** ** Scenarios of the specification *)

(** A source that declares [class Agent] with only [on_turn] loads, and the
    check reports no tag. *)
Example scenario_Agent_with_only_on_turn :
  let file := RegularFile (λ name,
    ret (<["Agent" := GoodBot]> (module_dunders name "/agents/only.py"))) in
  let disk := <["/agents/only.py" := file]> disk in
  (∃ agent w', load_agent id disk "/agents/only.py" None world0 = (Ret agent, w'))
  ∧ get_agent_game id disk "/agents/only.py" world0 = (Ret PyNone, world0).
Proof. split; [eexists _, _|]; vm_compute; reflexivity. Qed.

(** A source with [GAME = "split-or-steal"] asked to play ["coin-flip"] is
    refused; asked to play its own game, or no game in particular, it
    loads, and the check reports its tag. *)
Example scenario_game_tag :
  (∃ msg w', load_agent id disk "/agents/simple_agent.py" (Some "coin-flip") world0
               = (Raise (AgentLoadError GameMismatchSite msg), w'))
  ∧ (∃ agent w', load_agent id disk "/agents/simple_agent.py"
                   (Some "split-or-steal") world0 = (Ret agent, w'))
  ∧ (∃ agent w', load_agent id disk "/agents/simple_agent.py" None world0
                   = (Ret agent, w'))
  ∧ get_agent_game id disk "/agents/simple_agent.py" world0
    = (Ret (PyStr "split-or-steal"), world0).
Proof.
  repeat split; try eexists _, _; vm_compute; reflexivity.
Qed.

(** A directory called [agents.py], a file that does not parse, and a missing
    file. *)
Example scenario_unloadable :
  load_agent id disk "/agents/broken.py" None world0
    = (Raise (AgentLoadError ModuleLoadFailed
                "Failed to load agent module: invalid syntax"),
       registered "/agents/broken.py" world0)
  ∧ load_agent id (<["/agents.py" := Directory]> disk) "/agents.py" None world0
    = (Raise (AgentLoadError ModuleLoadFailed
                "Failed to load agent module: /agents.py"),
       registered "/agents.py" world0)
  ∧ load_agent id disk "/agents/missing.py" None world0
    = (Raise (AgentLoadError FileNotFound
                "Agent file not found: /agents/missing.py"), world0).
Proof. repeat split; vm_compute; reflexivity. Qed.


(** * Further properties of the loader *)

(** X2. An [Exception] of user code is wrapped with its text and the state
    is not rolled back: when the file's code raises, [load_agent] raises
    "Failed to load agent module: ..." in the state the code left; when the
    call of the candidate raises, it raises "Failed to instantiate agent:
    ..." in the state the call left. *)
Theorem load_agent_wraps_user_errors resolve fs agent_path expected_game w
    code :
  fs !! resolve agent_path = Some (RegularFile code) →
  PyString.suffix (resolve agent_path) = ".py" →
  (∀ e w1,
     code "user_agent" (registered (resolve agent_path) w) = (Raise e, w1) →
     is_Exception e = true →
     load_agent resolve fs agent_path expected_game w
       = (Raise (AgentLoadError ModuleLoadFailed
                   ("Failed to load agent module: " +:+ exc_str e)), w1))
  ∧ (∀ module w1 agent_class e w2,
       code "user_agent" (registered (resolve agent_path) w) = (Ret module, w1) →
       find_agent_class module w1 = (Ret agent_class, w1) →
       game_mismatch (getattr agent_class "GAME" PyNone) expected_game = false →
       py_call agent_class w1 = (Raise e, w2) →
       is_Exception e = true →
       agent_class ≠ PyNone →
       load_agent resolve fs agent_path expected_game w
         = (Raise (AgentLoadError InstantiationFailed
                     ("Failed to instantiate agent: " +:+ exc_str e)), w2)).
Proof.
  intros Hfile Hsuf. split.
  - intros e w1 Hrun He.
    rewrite load_agent_checked by (done || by eapply path_exists_lookup).
    unfold exec_module. simpl. by rewrite Hfile, Hrun, He.
  - intros module w1 agent_class e w2 Hrun Hfind Hgame Hcall He Hnone.
    rewrite (load_agent_candidate _ _ _ _ _ code module w1 agent_class) by done.
    assert (py_is agent_class PyNone = false) as -> by (by destruct agent_class).
    by rewrite (check_game_pass _ _ _ Hgame), Hcall, He.
Qed.

Lemma load_agent_wraps_user_errors_witness :
  load_agent id disk "/agents/broken.py" (Some "coin-flip") world0
    = (Raise (AgentLoadError ModuleLoadFailed
                "Failed to load agent module: invalid syntax"),
       registered "/agents/broken.py" world0).
Proof.
  refine (proj1 (load_agent_wraps_user_errors id disk "/agents/broken.py"
                   (Some "coin-flip") world0
                   (λ _, raise (OtherException "SyntaxError" "invalid syntax"))
                   _ _)
            (OtherException "SyntaxError" "invalid syntax")
            (registered "/agents/broken.py" world0) _ _).
  - vm_compute. reflexivity.
  - vm_compute. reflexivity.
  - reflexivity.
  - reflexivity.
Defined.

Lemma load_agent_returns_inv resolve fs agent_path expected_game w agent w' :
  load_agent resolve fs agent_path expected_game w = (Ret agent, w') →
  ∃ code module w1 agent_class,
    fs !! resolve agent_path = Some (RegularFile code)
    ∧ PyString.suffix (resolve agent_path) = ".py"
    ∧ code "user_agent" (registered (resolve agent_path) w) = (Ret module, w1)
    ∧ find_agent_class module w1 = (Ret agent_class, w1)
    ∧ agent_class ≠ PyNone
    ∧ game_mismatch (getattr agent_class "GAME" PyNone) expected_game = false
    ∧ py_call agent_class w1 = (Ret agent, w')
    ∧ hasattr agent "on_turn" = true
    ∧ callable (getattr agent "on_turn" PyNone) = true.
Proof.
  destruct (path_exists fs (resolve agent_path)) eqn:Hexists;
    [|unfold load_agent; by rewrite Hexists].
  destruct (String.eqb_spec (PyString.suffix (resolve agent_path)) ".py")
    as [Hsuf|Hsuf];
    [|unfold load_agent; rewrite Hexists;
      apply String.eqb_neq in Hsuf; by rewrite Hsuf].
  rewrite load_agent_checked by done.
  apply bool_decide_eq_true in Hexists as [entry Hfile].
  unfold exec_module. simpl. rewrite Hfile.
  destruct entry as [|code]; [done|].
  destruct (code "user_agent" _) as [[module|e] w1] eqn:Hrun;
    [|by destruct (is_Exception e)].
  destruct (find_agent_class_pure module w1) as [agent_class Hfind].
  rewrite Hfind.
  destruct (py_is agent_class PyNone) eqn:Hnone; [done|].
  destruct (game_mismatch (getattr agent_class "GAME" PyNone) expected_game)
    eqn:Hgame.
  { destruct (check_game_mismatch _ _ w1 Hgame) as [msg ->]. done. }
  rewrite (check_game_pass _ _ _ Hgame).
  destruct (py_call agent_class w1) as [[agent'|e] w2] eqn:Hcall;
    [|by destruct (is_Exception e)].
  destruct (negb _ || negb _) eqn:Hok; [done|]. intros [= <- <-].
  apply orb_false_iff in Hok as [Hhas Hcallable].
  apply negb_false_iff in Hhas, Hcallable.
  exists code, module, w1, agent_class. repeat split; try done.
  intros ->. done.
Qed.

(** X3. [load_agent] returns an agent exactly when the path exists and has
    the suffix [".py"], the file's code runs to its end, the [GAME] check
    does not object to the object [agent_class] that the search settles on,
    calling that object returns, and the object returned has a callable
    [on_turn]; the state is then the one the call left.  A search that comes
    back with [None] needs no clause of its own: [None] cannot be called. *)
Theorem load_agent_returns_iff resolve fs agent_path expected_game w agent w' :
  load_agent resolve fs agent_path expected_game w = (Ret agent, w')
  ↔ ∃ code module w1 agent_class,
      fs !! resolve agent_path = Some (RegularFile code)
      ∧ PyString.suffix (resolve agent_path) = ".py"
      ∧ code "user_agent" (registered (resolve agent_path) w) = (Ret module, w1)
      ∧ find_agent_class module w1 = (Ret agent_class, w1)
      ∧ game_mismatch (getattr agent_class "GAME" PyNone) expected_game = false
      ∧ py_call agent_class w1 = (Ret agent, w')
      ∧ hasattr agent "on_turn" = true
      ∧ callable (getattr agent "on_turn" PyNone) = true.
Proof.
  split.
  - intros Hload. apply load_agent_returns_inv in Hload
      as (code & module & w1 & agent_class & Hfile & Hsuf & Hrun & Hfind
          & _ & Hgame & Hcall & Hhas & Hcallable).
    by exists code, module, w1, agent_class.
  - intros (code & module & w1 & agent_class & Hfile & Hsuf & Hrun & Hfind
            & Hgame & Hcall & Hhas & Hcallable).
    rewrite (load_agent_candidate _ _ _ _ _ code module w1 agent_class) by done.
    assert (py_is agent_class PyNone = false) as ->
      by (by destruct agent_class as [| | | |? ? ? []]).
    by rewrite (check_game_pass _ _ _ Hgame), Hcall, Hhas, Hcallable.
Qed.

(** X4. [load_agent] raises at the mismatch site exactly when the file is
    loaded, a candidate is found, [expected_game] is a non-empty string, the
    candidate's [GAME] is true as a condition and the two are unequal; the
    state is then the one the file's code left. *)
Theorem load_agent_game_mismatch_iff resolve fs agent_path expected_game w w' :
  (∃ msg, load_agent resolve fs agent_path expected_game w
            = (Raise (AgentLoadError GameMismatchSite msg), w'))
  ↔ ∃ code module agent_class,
      fs !! resolve agent_path = Some (RegularFile code)
      ∧ PyString.suffix (resolve agent_path) = ".py"
      ∧ code "user_agent" (registered (resolve agent_path) w) = (Ret module, w')
      ∧ find_agent_class module w' = (Ret agent_class, w')
      ∧ agent_class ≠ PyNone
      ∧ game_mismatch (getattr agent_class "GAME" PyNone) expected_game = true.
Proof.
  split.
  - intros [msg Hload]. revert Hload.
    destruct (path_exists fs (resolve agent_path)) eqn:Hexists;
      [|unfold load_agent; by rewrite Hexists].
    destruct (String.eqb_spec (PyString.suffix (resolve agent_path)) ".py")
      as [Hsuf|Hsuf];
      [|unfold load_agent; rewrite Hexists;
        apply String.eqb_neq in Hsuf; by rewrite Hsuf].
    rewrite load_agent_checked by done.
    apply bool_decide_eq_true in Hexists as [entry Hfile].
    unfold exec_module. simpl. rewrite Hfile.
    destruct entry as [|code]; [done|].
    destruct (code "user_agent" _) as [[module|e] w1] eqn:Hrun;
      [|by destruct e].
    destruct (find_agent_class_pure module w1) as [agent_class Hfind].
    rewrite Hfind.
    destruct (py_is agent_class PyNone) eqn:Hnone; [done|].
    destruct (game_mismatch (getattr agent_class "GAME" PyNone) expected_game)
      eqn:Hgame.
    + destruct (check_game_mismatch _ _ w1 Hgame) as [msg' ->].
      intros [= _ <-]. exists code, module, agent_class.
      repeat split; try done. intros ->. done.
    + rewrite (check_game_pass _ _ _ Hgame).
      destruct (py_call agent_class w1) as [[agent'|e] w2];
        [by destruct (negb _ || negb _) | by destruct e].
  - intros (code & module & agent_class & Hfile & Hsuf & Hrun & Hfind
            & Hnone & Hgame).
    rewrite (load_agent_candidate _ _ _ _ _ code module w' agent_class) by done.
    assert (py_is agent_class PyNone = false) as -> by (by destruct agent_class).
    destruct (check_game_mismatch _ _ w' Hgame) as [msg ->]. by exists msg.
Qed.

(** X5. Supplying [expected_game] only adds a reason to refuse: a call with
    an expected game either raises at the mismatch site or does exactly
    what the call without one does. *)
Theorem load_agent_expected_game_only_refuses resolve fs agent_path
    expected_game w :
  (∃ msg w', load_agent resolve fs agent_path expected_game w
               = (Raise (AgentLoadError GameMismatchSite msg), w'))
  ∨ load_agent resolve fs agent_path expected_game w
    = load_agent resolve fs agent_path None w.
Proof.
  destruct (path_exists fs (resolve agent_path)) eqn:Hexists;
    [|right; unfold load_agent; by rewrite Hexists].
  destruct (String.eqb_spec (PyString.suffix (resolve agent_path)) ".py")
    as [Hsuf|Hsuf];
    [|right; unfold load_agent; rewrite Hexists;
      apply String.eqb_neq in Hsuf; by rewrite Hsuf].
  rewrite !load_agent_checked by done.
  destruct (exec_module fs _ _) as [[module|e] w1]; [|by right].
  destruct (find_agent_class module w1) as [[agent_class|e] w2]; [|by right].
  destruct (py_is agent_class PyNone); [by right|].
  destruct (check_game_cases (getattr agent_class "GAME" PyNone)
              expected_game w2) as [-> | [msg ->]].
  - right. by rewrite (check_game_pass _ None).
  - left. by eexists _, _.
Qed.

Lemma load_agent_returns_iff_witness :
  load_agent id disk "/agents/openai_agent.py" (Some "nil-recruitment") world0
    = (Ret (PyObject 401 false OpenAIAgent_attrs None),
       log_effect "OpenAI()" (registered "/agents/openai_agent.py" world0)).
Proof.
  apply (proj2 (load_agent_returns_iff id disk "/agents/openai_agent.py"
                  (Some "nil-recruitment") world0 _ _)).
  eexists _, _, _, OpenAIAgent. split; [vm_compute; reflexivity|].
  split; [vm_compute; reflexivity|]. split; [reflexivity|].
  split; [vm_compute; reflexivity|].
  split; [reflexivity|]. split; [reflexivity|].
  split; vm_compute; reflexivity.
Defined.

Lemma load_agent_game_mismatch_iff_witness :
  ∃ msg, load_agent id disk "/agents/simple_agent.py" (Some "liars-dice") world0
           = (Raise (AgentLoadError GameMismatchSite msg),
              registered "/agents/simple_agent.py" world0).
Proof.
  apply (proj2 (load_agent_game_mismatch_iff id disk "/agents/simple_agent.py"
                  (Some "liars-dice") world0 _)).
  eexists _, _, SimpleAgent. split; [vm_compute; reflexivity|].
  split; [vm_compute; reflexivity|]. split; [reflexivity|].
  split; [vm_compute; reflexivity|]. split; [discriminate | reflexivity].
Defined.

(** ** The order of the scan *)

Lemma eligible_split obj :
  eligible obj = true ↔
  isinstance_type obj && negb (py_is obj AgentBase) = true
  ∧ hasattr obj "on_turn" = true.
Proof. unfold eligible. by rewrite andb_true_iff. Qed.

(** On a sorted list of names the scan of [load_agent] stops at the first
    eligible class, which has the least name of all eligible ones. *)
Lemma scan_for_agent_class_least (module : Namespace) names w obj w' :
  StronglySorted String.le names →
  scan_for_agent_class module names w = (Ret obj, w') →
  (obj = PyNone
   ∧ ∀ name o, name ∈ names → module !! name = Some o → eligible o = false)
  ∨ (∃ name, name ∈ names ∧ module !! name = Some obj ∧ eligible obj = true
       ∧ ∀ name' o', name' ∈ names → module !! name' = Some o' →
           eligible o' = true → String.le name name').
Proof.
  induction 1 as [|name rest Hsorted IH Hle]; cbn [scan_for_agent_class];
    py_unfold.
  - intros [= <- _]. left. split; [done|]. intros name o Hin.
    by apply elem_of_nil in Hin.
  - destruct (module !! name) as [o|] eqn:Ho; [|done].
    destruct (eligible o) eqn:Hel.
    + apply eligible_split in Hel as Hel'. destruct Hel' as [-> ->].
      intros [= <- _]. right. exists name.
      split; [by left|]. split; [done|]. split; [done|].
      intros name' o' Hin Ho' _.
      apply elem_of_cons in Hin as [-> | Hin]; [done|].
      rewrite Forall_forall in Hle. by apply Hle.
    + intros Hscan.
      assert (scan_for_agent_class module rest w = (Ret obj, w')) as Hrest.
      { revert Hscan. unfold eligible in Hel.
        destruct (isinstance_type o && negb (py_is o AgentBase)); [|done].
        simpl in Hel. by rewrite Hel. }
      destruct (IH Hrest) as [[-> Hnone] | (n & Hin & Hn & Heln & Hleast)].
      * left. split; [done|]. intros name' o' Hin Ho'.
        apply elem_of_cons in Hin as [-> | Hin]; [congruence | by eapply Hnone].
      * right. exists n. split; [by right|]. split; [done|]. split; [done|].
        intros name' o' Hin' Ho' Hel'.
        apply elem_of_cons in Hin' as [-> | Hin']; [congruence | by eapply Hleast].
Qed.

Lemma dir_sorted (module : Namespace) : StronglySorted String.le (dir_ module).
Proof. unfold dir_. apply (StronglySorted_merge_sort _). Qed.

Lemma find_agent_class_least_name_aux (module : Namespace) w obj w' :
  module !! "Agent" = None →
  find_agent_class module w = (Ret obj, w') →
  obj = PyNone ∨ ∃ name, module !! name = Some obj ∧ eligible obj = true.
Proof.
  intros Hagent. unfold find_agent_class. rewrite Hagent. intros Hscan.
  destruct (scan_for_agent_class_least _ _ _ _ _ (dir_sorted module) Hscan)
    as [[-> Hnone] | (name & Hin & Hname & Hel & Hleast)]; [by left|].
  right. by exists name.
Qed.

(** X6. Without an attribute [Agent], the candidate is the eligible class
    (a class, not [AgentBase] itself, with [on_turn]) whose name comes first
    in code-point order among all eligible classes of the module, whatever
    the order of their definitions in the file; it is [None] exactly when
    the module has no eligible class. *)
Theorem find_agent_class_least_name (module : Namespace) w obj w' :
  module !! "Agent" = None →
  find_agent_class module w = (Ret obj, w') →
  (obj = PyNone
   ∧ ∀ name o, module !! name = Some o → eligible o = false)
  ∨ (∃ name, module !! name = Some obj ∧ eligible obj = true
       ∧ ∀ name' o', module !! name' = Some o' → eligible o' = true →
           String.le name name').
Proof.
  intros Hagent. unfold find_agent_class. rewrite Hagent. intros Hscan.
  destruct (scan_for_agent_class_least _ _ _ _ _ (dir_sorted module) Hscan)
    as [[-> Hnone] | (name & Hin & Hname & Hel & Hleast)].
  - left. split; [done|]. intros name o Ho. eapply Hnone; [|done].
    apply elem_of_dir. by eexists.
  - right. exists name. split; [done|]. split; [done|].
    intros name' o' Ho' Hel'. eapply Hleast; [|done..].
    apply elem_of_dir. by eexists.
Qed.

Lemma find_agent_class_least_name_witness :
  (GoodBot = PyNone
   ∧ ∀ name o,
       (<["Zed" := SimpleAgent]> (<["GoodBot" := GoodBot]>
          (module_dunders "user_agent" "/agents/two.py"))) !! name = Some o →
       eligible o = false)
  ∨ (∃ name,
       (<["Zed" := SimpleAgent]> (<["GoodBot" := GoodBot]>
          (module_dunders "user_agent" "/agents/two.py"))) !! name = Some GoodBot
       ∧ eligible GoodBot = true
       ∧ ∀ name' o',
           (<["Zed" := SimpleAgent]> (<["GoodBot" := GoodBot]>
              (module_dunders "user_agent" "/agents/two.py"))) !! name' = Some o' →
           eligible o' = true → String.le name name').
Proof.
  apply (find_agent_class_least_name _ world0 GoodBot world0).
  - vm_compute. reflexivity.
  - vm_compute. reflexivity.
Defined.


(** ** Where the compatibility check and the loader agree *)

Lemma same_for_scans_lookup (module module' : Namespace) name :
  same_for_scans module module' →
  scan_view <$> (module !! name) = scan_view <$> (module' !! name).
Proof.
  intros Hsame. rewrite <- !lookup_fmap. by rewrite Hsame.
Qed.

(** Namespaces that bind the same names have the same [dir()]. *)
Lemma dir_same_names (module module' : Namespace) :
  (∀ name, is_Some (module !! name) ↔ is_Some (module' !! name)) →
  dir_ module = dir_ module'.
Proof.
  intros Hdom.
  apply (StronglySorted_unique String.le); [apply dir_sorted..|].
  apply NoDup_Permutation.
  - unfold dir_. rewrite merge_sort_Permutation. apply NoDup_fst_map_to_list.
  - unfold dir_. rewrite merge_sort_Permutation. apply NoDup_fst_map_to_list.
  - intros name. by rewrite !elem_of_dir.
Qed.

Lemma same_for_scans_dir (module module' : Namespace) :
  same_for_scans module module' → dir_ module = dir_ module'.
Proof.
  intros Hsame. apply dir_same_names. intros name.
  pose proof (same_for_scans_lookup _ _ name Hsame) as Hname.
  destruct (module !! name), (module' !! name); simplify_eq; split;
    intros [? ?]; by simplify_eq.
Qed.

(** In a module that does not bind [AgentBase], the two loops stop at the
    same name, also when one runs over the namespace of one execution of
    the file and the other over that of another. *)
Lemma scans_agree (module module' : Namespace) names w w' :
  same_for_scans module module' →
  Forall (λ name, is_Some (module !! name)) names →
  (∀ name obj, module !! name = Some obj → py_is obj AgentBase = false) →
  ∃ agent_class,
    scan_for_agent_class module names w = (Ret agent_class, w)
    ∧ scan_for_game module' names w'
      = (Ret (if py_is agent_class PyNone then None
              else Some (getattr agent_class "GAME" PyNone)), w').
Proof.
  intros Hsame Hnames Hbase.
  induction Hnames as [|name rest [obj Hobj] _ IH];
    cbn [scan_for_agent_class scan_for_game]; [by exists PyNone|].
  pose proof (same_for_scans_lookup _ _ name Hsame) as Hname.
  rewrite Hobj in Hname. destruct (module' !! name) as [obj'|] eqn:Hobj';
    [|done].
  injection Hname as Hty Hab Hhas Hgame.
  py_unfold. rewrite Hobj, Hobj'. py_unfold.
  rewrite <- Hty, <- Hhas, <- Hgame, (Hbase _ _ Hobj). simpl.
  rewrite andb_true_r.
  destruct (isinstance_type obj) eqn:Hty'; simpl; [|exact IH].
  destruct (hasattr obj "on_turn"); [|exact IH].
  exists obj. split; [done|]. by destruct obj.
Qed.

(** X7. Take a file on which [load_agent] succeeds, and let the module it
    builds when run as [user_agent_check] bind the same names as the one it
    builds when run as [user_agent], to objects alike in what the searches
    look at ([__name__] and the identity of the classes differ between the
    two runs).  If the module has a name [Agent], or does not bind
    [AgentBase] under any name, then [get_agent_game], called in the state
    [load_agent] was called in, reports the [GAME] of the class that
    [load_agent] instantiated ([None] when the class declares none). *)
Theorem get_agent_game_agrees_with_load_agent resolve fs agent_path
    expected_game w code module w1 module' w1' agent w2 :
  fs !! resolve agent_path = Some (RegularFile code) →
  PyString.suffix (resolve agent_path) = ".py" →
  code "user_agent" (registered (resolve agent_path) w) = (Ret module, w1) →
  code "user_agent_check" w = (Ret module', w1') →
  same_for_scans module module' →
  is_Some (module !! "Agent")
  ∨ (∀ name obj, module !! name = Some obj → py_is obj AgentBase = false) →
  load_agent resolve fs agent_path expected_game w = (Ret agent, w2) →
  ∃ agent_class,
    find_agent_class module w1 = (Ret agent_class, w1)
    ∧ py_call agent_class w1 = (Ret agent, w2)
    ∧ get_agent_game resolve fs agent_path w
      = (Ret (getattr agent_class "GAME" PyNone), w1').
Proof.
  intros Hfile Hsuf Hrun Hcheck Hsame Hmod Hload.
  apply load_agent_returns_inv in Hload
    as (code' & module'' & w1'' & agent_class & Hfile' & _ & Hrun' & Hfind
        & Hnone & _ & Hcall & _).
  rewrite Hfile in Hfile'. injection Hfile' as <-.
  rewrite Hrun in Hrun'. injection Hrun' as <- <-.
  exists agent_class. split; [done|]. split; [done|].
  rewrite (get_agent_game_file _ _ _ code), Hcheck by done.
  pose proof (same_for_scans_lookup _ _ "Agent" Hsame) as HAgent.
  revert Hfind. unfold find_agent_class.
  destruct (module !! "Agent") as [a|] eqn:Ha;
    destruct (module' !! "Agent") as [a'|] eqn:Ha'; try done.
  - intros [= <-]. injection HAgent as _ _ _ Hgame. by rewrite Hgame.
  - destruct Hmod as [[? ?] | Hbase]; [done|].
    rewrite <- (same_for_scans_dir _ _ Hsame).
    destruct (scans_agree module module' (dir_ module) w1 w1' Hsame
                (dir_bound module) Hbase) as (c & -> & ->).
    intros [= ->]. by destruct agent_class.
Qed.

Lemma get_agent_game_agrees_with_load_agent_witness :
  ∃ agent_class,
    find_agent_class
      (<["ProtoBot" := ProtoBot]> (module_dunders "user_agent" "/agents/plain_bot.py"))
      (registered "/agents/plain_bot.py" world0)
      = (Ret agent_class, registered "/agents/plain_bot.py" world0)
    ∧ py_call agent_class (registered "/agents/plain_bot.py" world0)
      = (Ret (PyObject 301 false
                (("on_turn", method 302 "on_turn") :: lifecycle_methods 10) None),
         registered "/agents/plain_bot.py" world0)
    ∧ get_agent_game id disk "/agents/plain_bot.py" world0
      = (Ret (getattr agent_class "GAME" PyNone), world0).
Proof.
  refine (get_agent_game_agrees_with_load_agent id disk "/agents/plain_bot.py"
            None world0
            (λ name, ret (<["ProtoBot" := ProtoBot]>
                            (module_dunders name "/agents/plain_bot.py")))
            _ _
            (<["ProtoBot" := ProtoBot]>
               (module_dunders "user_agent_check" "/agents/plain_bot.py"))
            _ _ _ _ _ _ _ _ _ _).
  - vm_compute. reflexivity.
  - vm_compute. reflexivity.
  - reflexivity.
  - reflexivity.
  - vm_compute. reflexivity.
  - right. intros name obj Hobj.
    apply elem_of_map_to_list in Hobj. revert Hobj.
    vm_compute map_to_list. intros Hobj.
    repeat (apply elem_of_cons in Hobj as [[= -> ->] | Hobj]; [reflexivity|]).
    by apply elem_of_nil in Hobj.
  - vm_compute. reflexivity.
Defined.

(** The two namespaces of that file are not the same: they differ in
    [__name__]. *)
Example plain_bot_modules_differ :
  (<["ProtoBot" := ProtoBot]>
     (module_dunders "user_agent" "/agents/plain_bot.py")) !! "__name__"
  ≠ (<["ProtoBot" := ProtoBot]>
       (module_dunders "user_agent_check" "/agents/plain_bot.py")) !! "__name__".
Proof. vm_compute. discriminate. Qed.

(** X8. [get_agent_game] registers nothing and calls nothing: the state it
    leaves is the state it was given, or the state in which the file's code,
    run as [user_agent_check], ended. *)
Theorem get_agent_game_only_runs_the_file resolve fs agent_path w r w' :
  get_agent_game resolve fs agent_path w = (r, w') →
  w' = w
  ∨ ∃ code r1,
      fs !! resolve agent_path = Some (RegularFile code)
      ∧ code "user_agent_check" w = (r1, w').
Proof.
  unfold get_agent_game.
  destruct (path_exists fs (resolve agent_path)) eqn:Hexists;
    [|intros [= _ <-]; by left].
  destruct (String.eqb_spec (PyString.suffix (resolve agent_path)) ".py")
    as [Hsuf|]; [|intros [= _ <-]; by left].
  simpl. apply bool_decide_eq_true in Hexists as [entry Hfile].
  rewrite (spec_for_py _ _ Hsuf). unfold exec_module. simpl. rewrite Hfile.
  py_unfold. destruct entry as [|code]; [intros [= _ <-]; by left|].
  destruct (code "user_agent_check" w) as [[module|e] w1] eqn:Hrun.
  - destruct (module !! "Agent");
      [intros [= _ <-]; right; by exists code, (Ret module)|].
    destruct (scan_for_game_pure module (dir_ module) w1 (dir_bound module))
      as [g ->].
    destruct g; intros [= _ <-]; right; by exists code, (Ret module).
  - destruct (is_Exception e); intros [= _ <-]; right; by exists code, (Raise e).
Qed.

Lemma get_agent_game_only_runs_the_file_witness :
  world0 = world0
  ∨ ∃ code r1,
      disk !! "/agents/openai_agent.py" = Some (RegularFile code)
      ∧ code "user_agent_check" world0 = (r1, world0).
Proof.
  apply (get_agent_game_only_runs_the_file id disk "/agents/openai_agent.py"
           world0 (Ret (PyStr "nil-recruitment")) world0).
  vm_compute. reflexivity.
Defined.

(** X9. A module without the name [Agent] whose only classes with [on_turn]
    are [AgentBase] itself (a file that imports the base class and defines
    no agent) is refused with "No agent class found": the base class is
    never instantiated in place of an agent. *)
Theorem load_agent_never_loads_AgentBase resolve fs agent_path expected_game w
    code module w1 :
  fs !! resolve agent_path = Some (RegularFile code) →
  PyString.suffix (resolve agent_path) = ".py" →
  code "user_agent" (registered (resolve agent_path) w) = (Ret module, w1) →
  module !! "Agent" = None →
  (∀ name obj, module !! name = Some obj →
     isinstance_type obj = true → hasattr obj "on_turn" = true →
     py_is obj AgentBase = true) →
  ∃ msg,
    load_agent resolve fs agent_path expected_game w
      = (Raise (AgentLoadError NoAgentClass msg), w1).
Proof.
  intros Hfile Hsuf Hrun Hagent Honly.
  destruct (find_agent_class_pure module w1) as [agent_class Hfind].
  rewrite (load_agent_candidate _ _ _ _ _ code module w1 agent_class) by done.
  destruct (find_agent_class_least_name_aux module w1 agent_class w1 Hagent Hfind)
    as [-> | (name & Hname & Hel)]; [by eexists|].
  apply eligible_split in Hel as [Hsel Hhas].
  apply andb_true_iff in Hsel as [Hty Hnot].
  rewrite (Honly _ _ Hname Hty Hhas) in Hnot. done.
Qed.

Lemma load_agent_never_loads_AgentBase_witness :
  ∃ msg,
    load_agent id (<["/agents/base_only.py" :=
                      RegularFile (λ name, ret (<["AgentBase" := AgentBase]>
                        (module_dunders name "/agents/base_only.py")))]> disk)
      "/agents/base_only.py" None world0
      = (Raise (AgentLoadError NoAgentClass msg),
         registered "/agents/base_only.py" world0).
Proof.
  refine (load_agent_never_loads_AgentBase id _ "/agents/base_only.py" None
            world0 _ _ _ _ _ _ _ _).
  - vm_compute. reflexivity.
  - vm_compute. reflexivity.
  - reflexivity.
  - vm_compute. reflexivity.
  - intros name obj Hobj.
    apply elem_of_map_to_list in Hobj. revert Hobj.
    vm_compute map_to_list. intros Hobj.
    repeat (apply elem_of_cons in Hobj as [[= -> ->] | Hobj];
            [by (reflexivity || discriminate)|]).
    by apply elem_of_nil in Hobj.
Defined.

(** * Further properties of the multi-game agent *)

(** X10. [on_turn] settles the game once: after any call
    [current_game_type] is set, the call changed nothing else of the agent
    and nothing at all if a game was already set, and no later [on_turn]
    changes the agent again, whatever payload it is given. *)
Theorem on_turn_classifies_once handler self game_state :
  is_None (current_game_type (on_turn handler self game_state).2) = false
  ∧ round_number (on_turn handler self game_state).2 = round_number self
  ∧ all_game_rules (on_turn handler self game_state).2 = all_game_rules self
  ∧ (is_None (current_game_type self) = false →
     (on_turn handler self game_state).2 = self)
  ∧ ∀ later_state,
      (on_turn handler (on_turn handler self game_state).2 later_state).2
      = (on_turn handler self game_state).2.
Proof.
  assert (∀ s gs, is_None (current_game_type s) = false →
                  (on_turn handler s gs).2 = s) as Hkeep.
  { intros s gs Hs. unfold on_turn. rewrite Hs.
    by destruct (eq_str (current_game_type s) "liars-dice"). }
  assert (is_None (current_game_type (on_turn handler self game_state).2)
          = false) as Hset.
  { unfold on_turn.
    destruct (is_None (current_game_type self)) eqn:Hnone.
    - by destruct (dict_contains game_state "your_dice").
    - by destruct (eq_str (current_game_type self) "liars-dice"). }
  split; [done|]. split; [|split; [|split]].
  - unfold on_turn. destruct (is_None (current_game_type self));
      [destruct (dict_contains game_state "your_dice")|];
      by destruct (eq_str _ "liars-dice").
  - unfold on_turn. destruct (is_None (current_game_type self));
      [destruct (dict_contains game_state "your_dice")|];
      by destruct (eq_str _ "liars-dice").
  - apply Hkeep.
  - intros later_state. by apply Hkeep.
Qed.

(** X11. After [on_round_start] the payload no longer matters for the
    dispatch, unless the round's [game_id] was given as [None]: with the id
    ["liars-dice"] every [on_turn] of the round goes to the Liar's Dice
    handler; with any other id, also one of a game the agent does not know,
    and with no id at all (the default is "split-or-steal"), it goes to the
    split-or-steal handler, even for a payload that has [your_dice]. *)
Theorem on_turn_follows_round_start handler self round_info game_state game_id :
  dict_get round_info "game_id" (VStr "split-or-steal") = game_id →
  is_None game_id = false →
  on_turn handler (on_round_start self round_info).1 game_state
  = (if eq_str game_id "liars-dice"
     then handler game_state (dict_get game_state "phase" VNone)
     else _handle_split_or_steal game_state (dict_get game_state "phase" VNone),
     (on_round_start self round_info).1).
Proof.
  intros Hid Hnone. unfold on_turn, on_round_start.
  cbn [fst current_game_type round_number all_game_rules].
  rewrite Hid, Hnone. cbn [current_game_type].
  by destruct (eq_str game_id "liars-dice").
Qed.

Lemma on_turn_follows_round_start_witness :
  on_turn _handle_liars_dice
    (on_round_start __init__ {[ "round_number" := VInt 1 ]}).1
    {[ "phase" := VStr "bid"; "your_dice" := VList [VInt 3] ]}
  = (Ret (VDict [("type", VStr "message"); ("text", VStr "")]),
     (on_round_start __init__ {[ "round_number" := VInt 1 ]}).1).
Proof.
  refine (eq_trans (on_turn_follows_round_start _handle_liars_dice __init__
           {[ "round_number" := VInt 1 ]}
           {[ "phase" := VStr "bid"; "your_dice" := VList [VInt 3] ]}
           (VStr "split-or-steal") _ _) _); reflexivity.
Defined.

(** X12. The split-or-steal handler never steals: what it returns is the
    commit of "split" or a message, and in the commit phase always the
    commit; it raises only in the negotiate phase, when [messages] is a
    value without a length. *)
Theorem split_or_steal_never_steals game_state phase :
  (∀ action, _handle_split_or_steal game_state phase = Ret action →
     action = VDict [("type", VStr "commit"); ("choice", VStr "split")]
     ∨ ∃ text, action = VDict [("type", VStr "message"); ("text", VStr text)])
  ∧ (eq_str phase "commit" = true →
     _handle_split_or_steal game_state phase
     = Ret (VDict [("type", VStr "commit"); ("choice", VStr "split")]))
  ∧ (∀ e, _handle_split_or_steal game_state phase = Raise e →
     eq_str phase "negotiate" = true
     ∧ py_len (dict_get game_state "messages" (VList [])) = Raise e).
Proof.
  unfold _handle_split_or_steal. split; [|split].
  - intros action. destruct (eq_str phase "negotiate").
    + destruct (py_len _) as [n|e]; [|done]. intros [= <-]. right. by eexists.
    + destruct (eq_str phase "commit"); intros [= <-];
        [by left | right; by eexists].
  - destruct phase as [| | |s| |]; try done. simpl. intros Hc.
    apply String.eqb_eq in Hc as ->. done.
  - intros e. destruct (eq_str phase "negotiate").
    + destruct (py_len _) as [n|e']; [done|]. by intros [= ->].
    + by destruct (eq_str phase "commit").
Qed.

Lemma split_or_steal_never_steals_witness :
  _handle_split_or_steal {[ "messages" := VInt 3 ]} (VStr "commit")
  = Ret (VDict [("type", VStr "commit"); ("choice", VStr "split")]).
Proof.
  refine (proj1 (proj2 (split_or_steal_never_steals
                          {[ "messages" := VInt 3 ]} (VStr "commit"))) _).
  reflexivity.
Defined.

(** X13. [on_round_end] with numeric points reports "Won", "Lost" or "Draw"
    as the agent's points are more than, less than or equal to the
    opponent's, a missing entry counting as 0 and the game named being the
    one of the result or else the one the agent has cached; points that are
    [null] make it raise [TypeError]. *)
Theorem on_round_end_outcome self result :
  (∀ yours theirs,
     as_int (dict_get result "your_points" (VInt 0)) = Some yours →
     as_int (dict_get result "opponent_points" (VInt 0)) = Some theirs →
     on_round_end self result
     = Ret (RoundEnded (dict_get result "round_number" VNone)
              (if (theirs <? yours)%Z then "Won"
               else if (yours <? theirs)%Z then "Lost" else "Draw")
              (dict_get result "game_id" (current_game_type self))
              (dict_get result "your_points" (VInt 0))
              (dict_get result "opponent_points" (VInt 0))))
  ∧ (result !! "your_points" = Some VNone →
     ∃ msg, on_round_end self result = Raise (OtherException "TypeError" msg)).
Proof.
  split.
  - intros yours theirs Hy Ht. unfold on_round_end.
    destruct (dict_get result "your_points" (VInt 0)) as [|b|z|s|l|d];
      try done;
      destruct (dict_get result "opponent_points" (VInt 0)) as [|b'|z'|s'|l'|d'];
      try done; simpl in *; simplify_eq;
      destruct (_ <? _)%Z; try done; by destruct (_ <? _)%Z.
  - intros Hnull. unfold on_round_end, dict_get. rewrite Hnull. by eexists.
Qed.

Lemma on_round_end_outcome_witness :
  on_round_end __init__ {[ "your_points" := VInt 50; "round_number" := VInt 1 ]}
  = Ret (RoundEnded (VInt 1) "Won" VNone (VInt 50) (VInt 0)).
Proof.
  refine (eq_trans (proj1 (on_round_end_outcome __init__
                  {[ "your_points" := VInt 50; "round_number" := VInt 1 ]})
           50%Z 0%Z _ _) _); reflexivity.
Defined.

(** ** The Liar's Dice handler *)

Lemma py_lt_num a b x y :
  as_int a = Some x → as_int b = Some y → py_lt a b = Ret (x <? y)%Z.
Proof.
  destruct a as [|p|z|s|l|d]; try done; simpl;
    destruct b as [|p'|z'|s'|l'|d']; try done; simpl; by intros [= <-] [= <-].
Qed.

Lemma py_add_int_num a x n :
  as_int a = Some x → py_add_int a n = Ret (VInt (x + n)).
Proof. unfold py_add_int. by intros ->. Qed.

(** An [int] below [2^53] in size is its own [float]. *)
Lemma round53_small n : (0 ≤ n < 2 ^ 53)%Z → round53 n = n.
Proof.
  intros [Hlo Hhi]. unfold round53.
  assert (Z.log2 n + 1 ≤ 53)%Z as Hbits.
  { destruct (decide (n = 0%Z)) as [->|Hn]; [done|].
    assert (Z.log2 n < 53)%Z; [|lia]. apply Z.log2_lt_pow2; lia. }
  apply Z.leb_le in Hbits. by rewrite Hbits.
Qed.

Lemma float_of_int_small t :
  (- 2 ^ 53 < t < 2 ^ 53)%Z → float_of_int t = Ret t.
Proof.
  intros Ht. unfold float_of_int. rewrite round53_small by lia.
  destruct (Z.leb_spec (2 ^ 1024) (Z.abs t)) as [Hbig|_].
  - assert (2 ^ 53 < 2 ^ 1024)%Z by (apply Z.pow_lt_mono_r; lia). lia.
  - f_equal. by destruct t.
Qed.

(** X14. Answering a bid given as a dict with a numeric quantity [q] and
    face [f], an iterable hand and [0 <= total_dice < 2^53], the handler
    always answers, never raises; it challenges when [q] is more than half
    of [total_dice]; and when it bids instead, the new bid is higher than
    the one it answers (a greater quantity, or the same quantity and a
    greater face), its quantity is at most [total_dice], and its face is
    from 2 to 6 when [f] was at least 1. *)
Theorem liars_dice_answer_to_bid game_state bid_items dice q f t :
  game_state !! "current_bid" = Some (VDict bid_items) →
  as_int (default (VInt 1) (assoc_value "quantity" bid_items)) = Some q →
  as_int (default (VInt 6) (assoc_value "face" bid_items)) = Some f →
  py_iter (dict_get game_state "your_dice" (VList [])) = Ret dice →
  as_int (dict_get game_state "total_dice" (VInt 10)) = Some t →
  (0 ≤ t < 2 ^ 53)%Z →
  ∃ action,
    _handle_liars_dice game_state (VStr "bid") = Ret action
    ∧ ((t < 2 * q)%Z → action = challenge)
    ∧ (action ≠ challenge →
       ∃ quantity face q' f',
         action = bid quantity face
         ∧ as_int quantity = Some q' ∧ as_int face = Some f'
         ∧ (q < q' ∨ q' = q ∧ f < f')%Z
         ∧ (q' ≤ t)%Z
         ∧ (1 ≤ f → 2 ≤ f' ≤ 6)%Z).
Proof.
  intros Hbid Hq Hf Hdice Ht Hrange.
  assert (dict_get game_state "current_bid" VNone = VDict bid_items) as Hcb
    by (unfold dict_get; by rewrite Hbid).
  unfold _handle_liars_dice.
  change (eq_str (VStr "bid") "bid") with true. cbn [negb].
  rewrite !Hcb. cbn [is_None value_get].
  rewrite Hdice. unfold py_mul_half. rewrite Ht.
  rewrite float_of_int_small by lia.
  unfold py_gt_float. rewrite Hq.
  destruct (Z.ltb_spec t (2 * q)) as [Hhigh|Hlow].
  { exists challenge. by repeat split. }
  rewrite (py_lt_num _ (VInt 6) f 6) by done.
  destruct (Z.ltb_spec f 6) as [Hface|Hface].
  - rewrite (py_add_int_num _ f) by done.
    eexists. split; [done|]. split; [lia|]. intros _.
    eexists _, _, q, (f + 1)%Z. repeat split; try done; lia.
  - rewrite (py_lt_num _ _ q t) by done.
    destruct (Z.ltb_spec q t) as [Hroom|Hfull].
    + rewrite (py_add_int_num _ q) by done.
      eexists. split; [done|]. split; [lia|]. intros _.
      eexists _, _, (q + 1)%Z, 2%Z. repeat split; try done; lia.
    + exists challenge. by repeat split.
Qed.

Lemma liars_dice_answer_to_bid_witness :
  ∃ action,
    _handle_liars_dice
      {[ "phase" := VStr "bid";
         "current_bid" := VDict [("quantity", VInt 3); ("face", VInt 6)];
         "your_dice" := VList [VInt 2; VInt 6; VInt 1];
         "total_dice" := VInt 10 ]} (VStr "bid") = Ret action
    ∧ ((10 < 2 * 3)%Z → action = challenge)
    ∧ (action ≠ challenge →
       ∃ quantity face q' f',
         action = bid quantity face
         ∧ as_int quantity = Some q' ∧ as_int face = Some f'
         ∧ (3 < q' ∨ q' = 3 ∧ 6 < f')%Z
         ∧ (q' ≤ 10)%Z
         ∧ (1 ≤ 6 → 2 ≤ f' ≤ 6)%Z).
Proof.
  apply (liars_dice_answer_to_bid _ [("quantity", VInt 3); ("face", VInt 6)]
           [VInt 2; VInt 6; VInt 1] 3 6 10); try reflexivity.
  split; [lia | reflexivity].
Defined.

Example liars_dice_raises_quantity :
  _handle_liars_dice
    {[ "current_bid" := VDict [("quantity", VInt 3); ("face", VInt 6)];
       "your_dice" := VList [VInt 2; VInt 6; VInt 1];
       "total_dice" := VInt 10 ]} (VStr "bid")
  = Ret (bid (VInt 4) (VInt 2)).
Proof. reflexivity. Qed.


(** *** The count of the faces *)

Lemma occ_cons z x zs :
  occ z (x :: zs) = ((if (x =? z)%Z then 1 else 0) + occ z zs)%Z.
Proof.
  unfold occ. rewrite filter_cons.
  destruct (Z.eqb_spec x z), (decide (x = z)); simpl; try done; lia.
Qed.

Lemma occ_nonneg z zs : (0 ≤ occ z zs)%Z.
Proof. unfold occ. lia. Qed.

Lemma occ_pos z zs : z ∈ zs → (1 ≤ occ z zs)%Z.
Proof.
  induction 1 as [z zs | z x zs _ IH]; rewrite occ_cons.
  - rewrite Z.eqb_refl. pose proof (occ_nonneg z zs). lia.
  - destruct (x =? z)%Z; lia.
Qed.

(** Two different faces do not count the same die. *)
Lemma occ_two_faces a b zs :
  a ≠ b → (occ a zs + occ b zs ≤ Z.of_nat (length zs))%Z.
Proof.
  intros Hab. induction zs as [|x zs IH]; [done|].
  rewrite !occ_cons. simpl length.
  destruct (Z.eqb_spec x a), (Z.eqb_spec x b); subst; try done; lia.
Qed.

Lemma count_wilds_ints zs : count_wilds (VInt <$> zs) = occ 1 zs.
Proof.
  unfold count_wilds, occ. f_equal. induction zs as [|x zs IH]; [done|].
  rewrite fmap_cons, !filter_cons. simpl.
  destruct (decide ((x =? 1)%Z = true)) as [Hx|Hx], (decide (x = 1%Z)) as [->|Hne];
    simpl; try (by f_equal).
  apply Z.eqb_eq in Hx. done.
Qed.

Lemma py_eq_int a b : py_eq (VInt a) (VInt b) = (a =? b)%Z.
Proof. reflexivity. Qed.

Lemma counts_get_set counts d n k :
  int_keys counts →
  counts_get (counts_set counts (VInt d) n) (VInt k)
  = if (d =? k)%Z then n else counts_get counts (VInt k).
Proof.
  induction 1 as [|[key m] rest [k0 Hk0] _ IH];
    cbn [counts_set counts_get]; rewrite ?py_eq_int; [done|].
  simpl in Hk0. subst key. rewrite py_eq_int.
  destruct (Z.eqb_spec k0 d) as [->|Hne];
    cbn [counts_get]; rewrite !py_eq_int.
  - by destruct (d =? k)%Z.
  - rewrite IH. destruct (Z.eqb_spec k0 k) as [->|?]; [|done].
    by destruct (Z.eqb_spec d k).
Qed.

Lemma counts_set_keys counts d n k :
  int_keys counts →
  VInt k ∈ (counts_set counts (VInt d) n).*1 ↔ VInt k ∈ counts.*1 ∨ k = d.
Proof.
  induction 1 as [|[key m] rest [k0 Hk0] _ IH]; cbn [counts_set].
  - change ([(VInt d, n)].*1) with [VInt d].
    rewrite list_elem_of_singleton. split; [intros [= ->]; by right|].
    intros [Hin | ->]; [by apply elem_of_nil in Hin | done].
  - simpl in Hk0. subst key. rewrite py_eq_int.
    destruct (Z.eqb_spec k0 d) as [->|Hne]; rewrite !fmap_cons; cbn [fst].
    + rewrite !elem_of_cons. split; [tauto|].
      intros [[?|?] | ->]; [tauto | tauto | by left].
    + rewrite !elem_of_cons, IH. tauto.
Qed.

Lemma counts_set_int_keys counts d n :
  int_keys counts → int_keys (counts_set counts (VInt d) n).
Proof.
  induction 1 as [|[key m] rest [k0 Hk0] Hrest IH]; cbn [counts_set].
  - repeat constructor. by exists d.
  - simpl in Hk0. subst key. rewrite py_eq_int.
    destruct (k0 =? d)%Z; constructor; try done; by exists k0.
Qed.

Lemma counts_set_NoDup counts d n :
  int_keys counts → NoDup counts.*1 → NoDup (counts_set counts (VInt d) n).*1.
Proof.
  induction 1 as [|[key m] rest [k0 Hk0] Hrest IH]; cbn [counts_set].
  - intros _. apply NoDup_singleton.
  - simpl in Hk0. subst key. rewrite fmap_cons, NoDup_cons, py_eq_int.
    cbn [fst]. intros [Hnotin Hnodup].
    destruct (Z.eqb_spec k0 d) as [->|Hne]; rewrite fmap_cons; cbn [fst];
      apply NoDup_cons.
    + done.
    + split; [|by apply IH]. rewrite counts_set_keys by done.
      intros [? | ?]; done.
Qed.

Lemma counts_get_elem counts k n :
  int_keys counts → NoDup counts.*1 → (VInt k, n) ∈ counts →
  counts_get counts (VInt k) = n.
Proof.
  induction 1 as [|[key m] rest [k0 Hk0] Hrest IH]; cbn [counts_get].
  - intros _ Hin. by apply elem_of_nil in Hin.
  - simpl in Hk0. subst key. rewrite fmap_cons, NoDup_cons, py_eq_int.
    cbn [fst]. intros [Hnotin Hnodup] Hin.
    apply elem_of_cons in Hin as [[= <- <-] | Hin].
    + by rewrite Z.eqb_refl.
    + destruct (Z.eqb_spec k0 k) as [->|Hne]; [|by apply IH].
      destruct Hnotin. apply list_elem_of_fmap. by exists (VInt k, n).
Qed.

(** The counting loop on a hand of [int]s: it ends, and each face other
    than 1 is a key counted as often as it occurs. *)
Lemma count_faces_ints zs counts :
  int_keys counts → NoDup counts.*1 →
  ∃ counts',
    count_faces (VInt <$> zs) counts = Ret counts'
    ∧ int_keys counts' ∧ NoDup counts'.*1
    ∧ (∀ k, counts_get counts' (VInt k)
            = (counts_get counts (VInt k)
               + (if (k =? 1)%Z then 0 else occ k zs))%Z)
    ∧ (∀ k, VInt k ∈ counts'.*1 ↔ VInt k ∈ counts.*1 ∨ (k ∈ zs ∧ k ≠ 1%Z)).
Proof.
  revert counts. induction zs as [|z zs IH]; intros counts Hint Hnodup.
  - exists counts. repeat split; try done.
    + intros k. unfold occ. simpl. destruct (k =? 1)%Z; lia.
    + by left.
    + intros [? | [Hin _]]; [done | by apply elem_of_nil in Hin].
  - rewrite fmap_cons. cbn [count_faces hashable]. rewrite py_eq_int.
    destruct (Z.eqb_spec z 1) as [->|Hz]; cbn [negb].
    + destruct (IH counts Hint Hnodup) as (cs & Hrun & Hint' & Hnd' & Hget & Hkeys).
      exists cs. repeat split; try done.
      * intros k. rewrite Hget, occ_cons.
        destruct (Z.eqb_spec k 1) as [->|Hk]; [done|].
        destruct (Z.eqb_spec 1 k); [done | lia].
      * rewrite Hkeys. intros [? | [Hin Hk]]; [by left|]. right.
        split; [by right | done].
      * rewrite Hkeys. intros [? | [Hin Hk]]; [by left|]. right.
        apply elem_of_cons in Hin as [-> | Hin]; done.
    + destruct (IH (counts_set counts (VInt z) (counts_get counts (VInt z) + 1)))
        as (cs & Hrun & Hint' & Hnd' & Hget & Hkeys);
        [by apply counts_set_int_keys | by apply counts_set_NoDup |].
      exists cs. repeat split; try done.
      * intros k. rewrite Hget, counts_get_set, occ_cons by done.
        destruct (Z.eqb_spec k 1) as [->|Hk].
        -- destruct (Z.eqb_spec z 1); [done | lia].
        -- destruct (Z.eqb_spec z k) as [->|?]; lia.
      * rewrite Hkeys, counts_set_keys by done.
        intros [[? | ->] | [Hin Hk]].
        -- by left.
        -- right. split; [by left | done].
        -- right. split; [by right | done].
      * rewrite Hkeys, counts_set_keys by done.
        intros [? | [Hin Hk]]; [by left; left|].
        apply elem_of_cons in Hin as [-> | Hin]; [left; by right|].
        by right.
Qed.

(** [max] returns an item of the dict with the greatest count. *)
Lemma max_by_count_spec best rest :
  max_by_count best rest ∈ best :: rest
  ∧ ∀ item, item ∈ best :: rest → (item.2 ≤ (max_by_count best rest).2)%Z.
Proof.
  revert best. induction rest as [|item rest IH]; intros best; simpl.
  - split; [by left|]. intros item Hin.
    apply list_elem_of_singleton in Hin as ->. done.
  - destruct (Z.ltb_spec best.2 item.2) as [Hlt|Hge].
    + destruct (IH item) as [Hin Hmax]. split; [by right|].
      intros it Hit. apply elem_of_cons in Hit as [-> | Hit].
      * etrans; [|apply Hmax; by left]. lia.
      * by apply Hmax.
    + destruct (IH best) as [Hin Hmax]. split.
      * apply elem_of_cons in Hin as [-> | Hin]; [by left | by right; right].
      * intros it Hit. apply elem_of_cons in Hit as [-> | Hit];
          [apply Hmax; by left|].
        apply elem_of_cons in Hit as [-> | Hit].
        -- etrans; [exact Hge|]. apply Hmax. by left.
        -- apply Hmax. by right.
Qed.

(** X15. The opening bid (no current bid) on a hand of [int] dice with a
    numeric [total_dice] never raises.  With no die other than wild 1s it
    is "2 sixes".  Otherwise the face bid is a face of the hand other than
    1 that no other such face outnumbers, and the quantity is the number of
    dice showing that face plus the number of 1s, capped at [total_dice]:
    never more than the hand holds. *)
Theorem liars_dice_opening_bid game_state zs t :
  is_None (dict_get game_state "current_bid" VNone) = true →
  dict_get game_state "your_dice" (VList []) = VList (VInt <$> zs) →
  as_int (dict_get game_state "total_dice" (VInt 10)) = Some t →
  ((∀ z, z ∈ zs → z = 1%Z) →
     _handle_liars_dice game_state (VStr "bid") = Ret (bid (VInt 2) (VInt 6)))
  ∧ ((∃ z, z ∈ zs ∧ z ≠ 1%Z) →
     ∃ quantity face n,
       _handle_liars_dice game_state (VStr "bid")
         = Ret (bid quantity (VInt face))
       ∧ face ∈ zs ∧ face ≠ 1%Z
       ∧ (∀ z, z ∈ zs → z ≠ 1%Z → (occ z zs ≤ occ face zs)%Z)
       ∧ as_int quantity = Some n
       ∧ n = Z.min (occ face zs + occ 1 zs) t
       ∧ (n ≤ Z.of_nat (length zs))%Z).
Proof.
  intros Hnobid Hdice Ht.
  destruct (count_faces_ints zs []) as (counts & Hrun & Hint & Hnodup & Hget & Hkeys);
    [constructor | constructor |].
  unfold int_keys in Hint.
  assert (_handle_liars_dice game_state (VStr "bid")
          = match counts with
            | [] => Ret (bid (VInt 2) (VInt 6))
            | first :: others =>
                let (best_face, best_count) := max_by_count first others in
                match py_min_int (best_count + occ 1 zs)
                        (dict_get game_state "total_dice" (VInt 10)) with
                | Raise e => Raise e
                | Ret quantity => Ret (bid quantity best_face)
                end
            end) as ->.
  { unfold _handle_liars_dice.
    change (eq_str (VStr "bid") "bid") with true. cbn [negb].
    rewrite Hnobid, Hdice. cbn [py_iter]. rewrite Hrun.
    destruct counts; [done|]. by rewrite count_wilds_ints. }
  split.
  - intros Hwild. destruct counts as [|[key n] others]; [done|].
    apply Forall_cons in Hint as [[k Hk] _]. simpl in Hk. subst key.
    assert (VInt k ∈ ((VInt k, n) :: others).*1) as Hin by (by left).
    apply Hkeys in Hin as [Hin | [Hin Hne]]; [by apply elem_of_nil in Hin|].
    by apply Hwild in Hin.
  - intros (z & Hz & Hz1).
    destruct counts as [|first others].
    { assert (VInt z ∈ ([] : list (Value * Z)).*1) as Hin
        by (apply Hkeys; by right).
      by apply elem_of_nil in Hin. }
    destruct (max_by_count_spec first others) as [Hbest Hmax].
    destruct (max_by_count first others) as [best_face best_count] eqn:Hmx.
    rewrite Forall_forall in Hint.
    destruct (Hint _ Hbest) as [face Hface]. simpl in Hface. subst best_face.
    assert (VInt face ∈ (first :: others).*1) as Hkey
      by (apply list_elem_of_fmap; by exists (VInt face, best_count)).
    apply Hkeys in Hkey as [Hkey | [Hhand Hne]];
      [by apply elem_of_nil in Hkey|].
    assert (best_count = occ face zs) as ->.
    { rewrite <- (counts_get_elem (first :: others) face best_count);
        [|by apply Forall_forall | done | done].
      rewrite Hget. simpl. destruct (Z.eqb_spec face 1); [done | lia]. }
    unfold py_min_int.
    rewrite (py_lt_num _ (VInt (occ face zs + occ 1 zs)) t
               (occ face zs + occ 1 zs)) by done.
    pose proof (occ_two_faces face 1 zs Hne) as Hhold.
    assert (∀ z', z' ∈ zs → z' ≠ 1%Z → (occ z' zs ≤ occ face zs)%Z) as Hmost.
    { intros z' Hz' Hz'1.
      assert (VInt z' ∈ (first :: others).*1) as Hk' by (apply Hkeys; by right).
      apply list_elem_of_fmap in Hk' as [[key n'] [Hkey' Hin']].
      simpl in Hkey'. subst key.
      specialize (Hmax _ Hin'). simpl in Hmax.
      rewrite <- (counts_get_elem (first :: others) z' n') in Hmax;
        [|by apply Forall_forall | done | done].
      rewrite Hget in Hmax. simpl in Hmax.
      destruct (Z.eqb_spec z' 1); [done | lia]. }
    destruct (Z.ltb_spec t (occ face zs + occ 1 zs)) as [Hcap|Hfree].
    + exists (dict_get game_state "total_dice" (VInt 10)), face, t.
      repeat split; try done; lia.
    + exists (VInt (occ face zs + occ 1 zs)), face, (occ face zs + occ 1 zs)%Z.
      repeat split; try done; lia.
Qed.

Lemma liars_dice_opening_bid_witness :
  ∃ quantity face n,
    _handle_liars_dice
      {[ "your_dice" := VList (VInt <$> [3; 1; 5; 3; 1]%Z);
         "total_dice" := VInt 10 ]} (VStr "bid")
      = Ret (bid quantity (VInt face))
    ∧ face ∈ [3; 1; 5; 3; 1]%Z ∧ face ≠ 1%Z
    ∧ (∀ z, z ∈ [3; 1; 5; 3; 1]%Z → z ≠ 1%Z →
         (occ z [3; 1; 5; 3; 1]%Z ≤ occ face [3; 1; 5; 3; 1]%Z)%Z)
    ∧ as_int quantity = Some n
    ∧ n = Z.min (occ face [3; 1; 5; 3; 1]%Z + occ 1 [3; 1; 5; 3; 1]%Z) 10%Z
    ∧ (n ≤ Z.of_nat (length [3; 1; 5; 3; 1]%Z))%Z.
Proof.
  refine (proj2 (liars_dice_opening_bid _ [3; 1; 5; 3; 1]%Z 10%Z _ _ _) _).
  - reflexivity.
  - reflexivity.
  - reflexivity.
  - exists 3%Z. split; [by left | done].
Defined.

Example liars_dice_opens_with_most_common_face :
  _handle_liars_dice
    {[ "your_dice" := VList (VInt <$> [3; 1; 5; 3; 1]%Z);
       "total_dice" := VInt 10 ]} (VStr "bid")
  = Ret (bid (VInt 4) (VInt 3)).
Proof. vm_compute. reflexivity. Qed.


(** X16. In the bid phase an ill-typed payload makes the handler raise, it
    is not answered with a guess: a hand that cannot be iterated (a number,
    [null]) raises its [TypeError] whether the bid is an opening one or an
    answer; a current bid that is neither [null] nor a dict raises
    [AttributeError]; and a die that is a list or a dict, in an opening
    hand, raises [TypeError]. *)
Theorem liars_dice_ill_typed_payload game_state :
  (∀ e,
     py_iter (dict_get game_state "your_dice" (VList [])) = Raise e →
     is_None (dict_get game_state "current_bid" VNone) = true
     ∨ (∃ items, dict_get game_state "current_bid" VNone = VDict items) →
     _handle_liars_dice game_state (VStr "bid") = Raise e)
  ∧ (is_None (dict_get game_state "current_bid" VNone) = false →
     (∀ items, dict_get game_state "current_bid" VNone ≠ VDict items) →
     ∃ msg, _handle_liars_dice game_state (VStr "bid")
            = Raise (OtherException "AttributeError" msg))
  ∧ (∀ dice die,
       is_None (dict_get game_state "current_bid" VNone) = true →
       py_iter (dict_get game_state "your_dice" (VList [])) = Ret dice →
       die ∈ dice → hashable die = false →
       ∃ msg, _handle_liars_dice game_state (VStr "bid")
              = Raise (OtherException "TypeError" msg)).
Proof.
  unfold _handle_liars_dice.
  change (eq_str (VStr "bid") "bid") with true. cbn [negb].
  split; [|split].
  - intros e Hiter [Hnone | [items Hbid]].
    + by rewrite Hnone, Hiter.
    + rewrite !Hbid. cbn [is_None value_get]. by rewrite Hiter.
  - intros Hnone Hdict. rewrite Hnone.
    destruct (dict_get game_state "current_bid" VNone) as [|b|z|s|l|d];
      try (by eexists). by destruct (Hdict d).
  - intros dice die Hnone Hiter Hin Hhash. rewrite Hnone, Hiter.
    assert (∀ counts, ∃ msg,
              count_faces dice counts = Raise (OtherException "TypeError" msg))
      as Hraise.
    { clear Hiter. induction Hin as [die dice | die d dice _ IH];
        intros counts; cbn [count_faces].
      - assert (py_eq die (VInt 1) = false) as -> by (by destruct die).
        cbn [negb]. rewrite Hhash. by eexists.
      - destruct (negb (py_eq d (VInt 1))); [|by apply IH].
        destruct (hashable d); [by apply IH | by eexists]. }
    destruct (Hraise []) as [msg ->]. by eexists.
Qed.

Lemma liars_dice_ill_typed_payload_witness :
  _handle_liars_dice {[ "your_dice" := VInt 5 ]} (VStr "bid")
  = Raise (OtherException "TypeError" "object is not iterable").
Proof.
  refine (proj1 (liars_dice_ill_typed_payload {[ "your_dice" := VInt 5 ]})
            _ _ _).
  - reflexivity.
  - left. reflexivity.
Defined.

Lemma on_turn_classifies_once_witness :
  (on_turn always_challenge
     (mkAgent (VInt 2) (VStr "liars-dice") (VDict []))
     {[ "phase" := VStr "commit" ]}).2
  = mkAgent (VInt 2) (VStr "liars-dice") (VDict []).
Proof.
  refine (proj1 (proj2 (proj2 (proj2 (on_turn_classifies_once always_challenge
            (mkAgent (VInt 2) (VStr "liars-dice") (VDict []))
            {[ "phase" := VStr "commit" ]})))) _).
  reflexivity.
Defined.
